(** * Papero CLI: the job submission and polling loop

    A shallow embedding of [cli/src/papero_cli.py] and [cli/src/core/config.py].

    - Python values that travel through the client are JSON values ([json]);
      [str] is [string], read as a sequence of code points below 256; numbers
      are the integers ([int] is unbounded, hence [Z]).
    - Exceptions are explicit: a computation that can raise has type [py A].
    - The remote service is a state machine [serve] over an arbitrary state
      type; an [await client.get/post] is one exchange with it, logged in the
      trace when the client resumes with the answer.
    - A coroutine is a small state machine ([pstate]) whose steps run from one
      suspension point to the next; [asyncio.gather] interleaves the steps of
      its coroutines under an arbitrary schedule.
    - A run that may go on for ever takes its fuel or its schedule as an
      argument and answers [None] when that runs out first. *)

From Stdlib Require Import ZArith String Ascii List Lia.
From stdpp Require Import base list strings pretty.

Set Warnings "-register-all".

Open Scope Z_scope.
Open Scope string_scope.
Open Scope list_scope.

(** ** Python values *)

Inductive json :=
| JNull
| JBool (b : bool)
| JInt (n : Z)
| JStr (s : string)
| JArr (l : list json)
| JObj (kv : list (string * json)).

(** The exceptions the client can meet.  [TransportError] stands for the
    [httpx.TransportError] family (connection errors, HTTP-layer timeouts),
    named by its class. *)
Inductive exn :=
| KeyError
| TypeError
| AttributeError
| IndexError
| JSONDecodeError
| TransportError (cls : string).

Inductive py (A : Type) :=
| Ok (a : A)
| Raise (e : exn).
Arguments Ok {A} a.
Arguments Raise {A} e.

#[global] Instance py_ret : MRet py := fun A a => Ok a.

#[global] Instance py_bind : MBind py := fun A B k m =>
  match m with
  | Ok a => k a
  | Raise e => Raise e
  end.

(** [d[key]] on a [dict] built by [json.loads]: the pairs are in insertion
    order with pairwise distinct keys. *)
Fixpoint dict_lookup (kv : list (string * json)) (key : string) : option json :=
  match kv with
  | [] => None
  | (k, v) :: rest => if String.eqb k key then Some v else dict_lookup rest key
  end.

(** [obj[key]] with a [str] key: [KeyError] on a dict without the key,
    [TypeError] on every other value (a list or a string wants an integer
    index, the others are not subscriptable). *)
Definition getitem (obj : json) (key : string) : py json :=
  match obj with
  | JObj kv =>
      match dict_lookup kv key with
      | Some v => Ok v
      | None => Raise KeyError
      end
  | _ => Raise TypeError
  end.

(** [obj.get(key)]: only a dict has the method. *)
Definition dict_get (obj : json) (key : string) : py json :=
  match obj with
  | JObj kv =>
      match dict_lookup kv key with
      | Some v => Ok v
      | None => Ok JNull
      end
  | _ => Raise AttributeError
  end.

(** [l[i]] on a list, for a non-negative index. *)
Definition list_getitem {A} (l : list A) (i : nat) : py A :=
  match l !! i with
  | Some x => Ok x
  | None => Raise IndexError
  end.

(** ** Text of a value: [json.dumps], [repr], [str] *)

Definition dquote : ascii := "034"%char.
Definition squote : ascii := "039"%char.
Definition backslash : ascii := "092"%char.

Definition str1 (c : ascii) : string := String c EmptyString.

Definition hex_digit (n : N) : ascii :=
  ascii_of_N (if (n <? 10)%N then 48 + n else 87 + n)%N.

Definition hex2 (n : N) : string :=
  String (hex_digit (n / 16)) (str1 (hex_digit (n mod 16))).

(** [json.encoder.py_encode_basestring_ascii], one character. *)
Definition json_escape_char (c : ascii) : string :=
  let n := N_of_ascii c in
  if (n =? 34)%N then String backslash (str1 dquote)
  else if (n =? 92)%N then String backslash (str1 backslash)
  else if (n =? 10)%N then "\n"
  else if (n =? 13)%N then "\r"
  else if (n =? 9)%N then "\t"
  else if (n =? 8)%N then "\b"
  else if (n =? 12)%N then "\f"
  else if ((32 <=? n) && (n <=? 126))%N then str1 c
  else "\u00" +:+ hex2 n.

Fixpoint string_flat_map (f : ascii -> string) (s : string) : string :=
  match s with
  | EmptyString => EmptyString
  | String c rest => f c +:+ string_flat_map f rest
  end.

Definition json_encode_str (s : string) : string :=
  str1 dquote +:+ string_flat_map json_escape_char s +:+ str1 dquote.

(** [json.dumps(data)] with the default separators and [ensure_ascii]. *)
Fixpoint json_dumps (j : json) : string :=
  match j with
  | JNull => "null"
  | JBool true => "true"
  | JBool false => "false"
  | JInt n => pretty n
  | JStr s => json_encode_str s
  | JArr l => "[" +:+ String.concat ", " (List.map json_dumps l) +:+ "]"
  | JObj kv =>
      "{" +:+
      String.concat ", "
        (List.map (fun p => json_encode_str (fst p) +:+ ": " +:+ json_dumps (snd p)) kv)
      +:+ "}"
  end.

Fixpoint string_mem (c : ascii) (s : string) : bool :=
  match s with
  | EmptyString => false
  | String d rest => Ascii.eqb c d || string_mem c rest
  end.

(** [str.isprintable] on one code point below 256. *)
Definition py_printable (n : N) : bool :=
  ((32 <=? n) && (n <=? 126) || (161 <=? n) && negb (n =? 173))%N.

Definition repr_escape_char (quote : ascii) (c : ascii) : string :=
  let n := N_of_ascii c in
  if Ascii.eqb c quote || Ascii.eqb c backslash then String backslash (str1 c)
  else if (n =? 9)%N then "\t"
  else if (n =? 10)%N then "\n"
  else if (n =? 13)%N then "\r"
  else if py_printable n then str1 c
  else "\x" +:+ hex2 n.

(** [repr(s)] for a [str]: single quotes unless the text has a single quote
    and no double quote. *)
Definition repr_str (s : string) : string :=
  let quote := if string_mem squote s && negb (string_mem dquote s) then dquote else squote in
  str1 quote +:+ string_flat_map (repr_escape_char quote) s +:+ str1 quote.

Fixpoint py_repr (j : json) : string :=
  match j with
  | JNull => "None"
  | JBool true => "True"
  | JBool false => "False"
  | JInt n => pretty n
  | JStr s => repr_str s
  | JArr l => "[" +:+ String.concat ", " (List.map py_repr l) +:+ "]"
  | JObj kv =>
      "{" +:+
      String.concat ", "
        (List.map (fun p => repr_str (fst p) +:+ ": " +:+ py_repr (snd p)) kv)
      +:+ "}"
  end.

(** [str(v)], which is what an f-string field [{v}] and [echo(v)] print. *)
Definition py_str (j : json) : string :=
  match j with
  | JStr s => s
  | _ => py_repr j
  end.

(** ** core/config.py *)

Record Settings := { PAPERO_SERVER : string }.

(** The value of [Settings()] when the environment does not set
    [PAPERO_SERVER]. *)
Definition default_settings : Settings :=
  {| PAPERO_SERVER := "https://papero.io" |}.

(** ** HTTP exchanges *)

Inductive method := GET | POST.

Record request := {
  meth : method;
  url : string;
  authorization : string;
  payload : option json
}.

(** [content] is the body as [json.loads] reads it, [None] for a body that is
    not JSON text. *)
Record response := {
  status_code : Z;
  content : option json
}.

(** What an [await client.get(..)] or [await client.post(..)] produces: a
    response, or a transport error of the given class raised by the call. *)
Inductive reply :=
| Resp (r : response)
| Fail (cls : string).

(** [response.json()] *)
Definition response_json (r : response) : py json :=
  match content r with
  | Some j => Ok j
  | None => Raise JSONDecodeError
  end.

Definition await_reply (a : reply) : py response :=
  match a with
  | Resp r => Ok r
  | Fail cls => Raise (TransportError cls)
  end.

(** [httpx.AsyncClient(headers={"authorization": f"Bearer {token}"})] *)
Record AsyncClient := { client_authorization : string }.

Definition new_client (token : string) : AsyncClient :=
  {| client_authorization := "Bearer " +:+ token |}.

Definition client_get (c : AsyncClient) (u : string) : request :=
  {| meth := GET; url := u; authorization := client_authorization c; payload := None |}.

Definition client_post (c : AsyncClient) (u : string) (body : json) : request :=
  {| meth := POST; url := u; authorization := client_authorization c; payload := Some body |}.

(** ** rich.progress *)

Record Task := {
  description : string;
  completed : Z;
  started : bool
}.

(** [progress.add_task(desc, start=..)]: the new task's id is the number of
    tasks added before it. *)
Definition add_task (p : list Task) (desc : string) (start : bool) : list Task * nat :=
  (p ++ [{| description := desc; completed := 0; started := start |}], length p).

(** [progress.update(task, completed=c)]: [KeyError] on an id that was never
    added. *)
Definition progress_update (p : list Task) (t : nat) (c : Z) : py (list Task) :=
  match p !! t with
  | Some tk =>
      Ok (<[t := {| description := description tk; completed := c; started := started tk |}]> p)
  | None => Raise KeyError
  end.

(** ** Observable events and coroutine states *)

Inductive event :=
| EvHttp (q : request) (a : reply)
| EvSleep (ms : Z).

(** [asyncio.sleep(0.3)], in milliseconds. *)
Definition poll_interval_ms : Z := 300.

(** Where a [poll_for_pdf] coroutine stands: about to send a status request
    with [pdf_link] still [None]; suspended in the sleep of the [except]
    branch, holding [pdf_link]; finished by [return]; finished by an
    exception. *)
Inductive pstate :=
| Polling
| Sleeping (pdf_link : json)
| Returned (v : json)
| Raised (e : exn).

Record poller := {
  job_id : json;
  task : nat;
  pc : pstate
}.

Definition set_pc (p : poller) (st : pstate) : poller :=
  {| job_id := job_id p; task := task p; pc := st |}.

(** [while pdf_link is None] followed by [return pdf_link]. *)
Definition loop_test (pdf_link : json) : pstate :=
  match pdf_link with
  | JNull => Polling
  | v => Returned v
  end.

(** [except (KeyError, TypeError)] *)
Definition caught (e : exn) : bool :=
  match e with
  | KeyError | TypeError => true
  | _ => false
  end.

(** [doc_req.json()["document"]["url"]] *)
Definition document_url (r : response) : py json :=
  j ← response_json r; d ← getitem j "document"; getitem d "url".

(** [job_req.json().get("job_id")] *)
Definition response_job_id (r : response) : py json :=
  j ← response_json r; dict_get j "job_id".

(** ** Reading a trace *)

Definition is_post (e : event) : bool :=
  match e with
  | EvHttp q _ => match meth q with POST => true | GET => false end
  | EvSleep _ => false
  end.

Definition is_status_poll (e : event) : bool :=
  match e with
  | EvHttp q _ => match meth q with GET => true | POST => false end
  | EvSleep _ => false
  end.

(** The job creations of a trace, in the order they happened. *)
Definition posts (tr : list event) : list (request * reply) :=
  omap (fun e =>
          match e with
          | EvHttp q a => if is_post e then Some (q, a) else None
          | EvSleep _ => None
          end) tr.

Definition is_fail (e : event) : bool :=
  match e with
  | EvHttp _ (Fail _) => true
  | _ => false
  end.

(** The number of status requests in a trace. *)
Definition count_polls (tr : list event) : nat :=
  length (List.filter is_status_poll tr).

(** A reply to a status request after which the poller goes on polling: a
    response that is not a 200, or a 200 whose JSON body has no
    [document.url] or a null one. *)
Definition pending (a : reply) : bool :=
  match a with
  | Fail _ => false
  | Resp r =>
      if (status_code r =? 200)%Z then
        match document_url r with
        | Ok JNull => true
        | Ok _ => false
        | Raise e => caught e
        end
      else true
  end.

(** ** URL encoding, as the specification words it

    The specification describes the job resource as
    [{template_server}/{template}?data={urlencoded-json}].  [percent_encode]
    is [urllib.parse.quote] with no character kept safe; [urlencoded] recognises the texts a
    URL-encoded query value can be, percent- or form-encoded alike. *)

Definition unreserved (c : ascii) : bool :=
  let n := N_of_ascii c in
  ((48 <=? n) && (n <=? 57) || (65 <=? n) && (n <=? 90) || (97 <=? n) && (n <=? 122)
   || (n =? 45) || (n =? 46) || (n =? 95) || (n =? 126))%N.

Definition upper_hex_digit (n : N) : ascii :=
  ascii_of_N (if (n <? 10)%N then 48 + n else 55 + n)%N.

Definition percent_encode_char (c : ascii) : string :=
  if unreserved c then str1 c
  else
    let n := N_of_ascii c in
    String "%" (String (upper_hex_digit (n / 16)) (str1 (upper_hex_digit (n mod 16)))).

Definition percent_encode (s : string) : string :=
  string_flat_map percent_encode_char s.

Fixpoint string_forallb (f : ascii -> bool) (s : string) : bool :=
  match s with
  | EmptyString => true
  | String c rest => f c && string_forallb f rest
  end.

Definition urlencoded (s : string) : bool :=
  string_forallb (fun c => unreserved c || Ascii.eqb c "%" || Ascii.eqb c "+") s.

(** The resource URL as the specification states it. *)
Definition spec_template_url (template_server template : string) (data : json) : string :=
  template_server +:+ "/" +:+ template +:+ "?data=" +:+ percent_encode (json_dumps data).

(** ** Services used in the examples *)

Definition ok_response (j : json) : response :=
  {| status_code := 200; content := Some j |}.

Definition document_ready (u : string) : response :=
  ok_response (JObj [("document", JObj [("url", JStr u)])]).

Definition not_found : response :=
  {| status_code := 404; content := Some (JObj [("detail", JStr "Not Found")]) |}.

(** A service that gives every request the same answer. *)
Definition always (a : reply) (s : unit) (q : request) : reply * unit := (a, s).

(** A job service: the k-th creation gets job id k; job 1 is ready from its
    second status request on with the document [url1], every other job at
    once with the document [url2].  The state counts the creations and the status requests
    for job 1. *)
Definition job_service (st : nat * nat) (q : request) : reply * (nat * nat) :=
  let '(created, polls1) := st in
  match meth q with
  | POST =>
      (Resp (ok_response (JObj [("job_id", JInt (Z.of_nat (Datatypes.S created)))])),
       (Datatypes.S created, polls1))
  | GET =>
      if String.eqb (url q) "https://papero.io/api/v1/jobs/1" then
        match polls1 with
        | O => (Resp (ok_response (JObj [])), (created, Datatypes.S polls1))
        | _ => (Resp (document_ready "url1"), st)
        end
      else (Resp (document_ready "url2"), st)
  end.

(** A service whose creation answer has no [job_id] and that knows no job
    under the resulting id. *)
Definition forgetful_service (s : unit) (q : request) : reply * unit :=
  match meth q with
  | POST => (Resp (ok_response (JObj [("detail", JStr "Not authenticated")])), s)
  | GET => (Resp not_found, s)
  end.

(** A 200 response whose body is not JSON text, such as an empty body. *)
Definition undecodable : response :=
  {| status_code := 200; content := None |}.

(** The service of the single-job scenario: the creation answers with job id
    [abc]; the first two status requests get an empty object, the third and
    later ones the document.  The state counts the status requests. *)
Definition three_polls_service (polls : nat) (q : request) : reply * nat :=
  match meth q with
  | POST => (Resp (ok_response (JObj [("job_id", JStr "abc")])), polls)
  | GET =>
      if (polls <? 2)%nat then (Resp (ok_response (JObj [])), Datatypes.S polls)
      else (Resp (document_ready "https://cdn/doc.pdf"), Datatypes.S polls)
  end.


Definition two_entries : list json :=
  [JObj [("a", JInt 1)]; JObj [("a", JInt 2)]].

Definition working_task : Task :=
  {| description := "Working"; completed := 0; started := false |}.

(** ** Commands

    How a command ends: it returns, it leaves by [raise Exit(code=..)], or an
    exception nobody catches leaves it. *)
Inductive ending :=
| Finished
| Exit (code : Z)
| Uncaught (e : exn).


(** A request of the module-level [httpx.post(url, data=..)]: a form body and
    no authorization header. *)
Record form_request := {
  form_url : string;
  form_data : list (string * string)
}.



(** A service that goes through a script: the n-th request it sees gets the
    n-th answer of [answers], and [rest] once the script is over.  The state
    counts the requests. *)
Definition scripted (answers : list reply) (rest : reply) (n : nat) (q : request)
  : reply * nat :=
  (default rest (answers !! n), Datatypes.S n).

(** A service without memory: a creation names the job after its resource,
    and a status request is answered at once with a document named after the
    URL of the request. *)
Definition mirror_service (s : unit) (q : request) : reply * unit :=
  match meth q with
  | POST =>
      match payload q with
      | Some body =>
          match dict_lookup
                  (match body with JObj kv => kv | _ => [] end) "resource" with
          | Some resource => (Resp (ok_response (JObj [("job_id", resource)])), s)
          | None => (Resp (ok_response (JObj [])), s)
          end
      | None => (Resp (ok_response (JObj [])), s)
      end
  | GET => (Resp (document_ready (url q)), s)
  end.

Section Client.

Variable settings : Settings.

(** The remote service. *)
Variable S : Type.
Variable serve : S -> request -> reply * S.

Record world := {
  srv : S;
  progress : list Task;
  trace : list event
}.

Definition init_world (s : S) : world :=
  {| srv := s; progress := []; trace := [] |}.

Definition set_progress (pr : list Task) (w : world) : world :=
  {| srv := srv w; progress := pr; trace := trace w |}.

Definition log (e : event) (w : world) : world :=
  {| srv := srv w; progress := progress w; trace := trace w ++ [e] |}.

(** One request answered by the service. *)
Definition exchange (q : request) (w : world) : reply * world :=
  let '(a, s') := serve (srv w) q in
  (a, {| srv := s'; progress := progress w; trace := trace w ++ [EvHttp q a] |}).

Definition api_url (suffix : string) : string :=
  PAPERO_SERVER settings +:+ "/api/v1/" +:+ suffix.

Definition default_template_server : string := "https://demo.papero.io/templates".

Definition template_url (template : string) (data : json) (template_server : string) : string :=
  let json_data := json_dumps data in
  template_server +:+ "/" +:+ template +:+ "?data=" +:+ json_data.

Definition post_job_request (c : AsyncClient) (resource input_type : string) : request :=
  client_post c (api_url "jobs/")
    (JObj [("resource", JStr resource); ("input_type", JStr input_type)]).

Definition post_job (c : AsyncClient) (resource input_type : string) (w : world) : reply * world :=
  exchange (post_job_request c resource input_type) w.

Definition post_template_job (c : AsyncClient) (template : string) (data : json) (w : world)
  : reply * world :=
  post_job c (template_url template data default_template_server) "url" w.

(** The request [post_template_job] sends for one data entry. *)
Definition template_request (c : AsyncClient) (template : string) (data : json) : request :=
  post_job_request c (template_url template data default_template_server) "url".

Definition status_request (c : AsyncClient) (jid : json) : request :=
  client_get c (api_url ("jobs/" +:+ py_str jid)).

(** The [except] branch for an exception [e] raised in the [try] block when
    [pdf_link] holds [v]: sleep and [continue] if [e] is caught, else [e]
    leaves the coroutine. *)
Definition on_exception (e : exn) (v : json) (w : world) : pstate * world :=
  if caught e then (Sleeping v, log (EvSleep poll_interval_ms) w)
  else (Raised e, w).

(** The loop body of [poll_for_pdf] from the arrival of [doc_req] to the
    next suspension point. *)
Definition on_status (p : poller) (doc_req : response) (w : world) : pstate * world :=
  if (status_code doc_req =? 200)%Z then
    match document_url doc_req with
    | Ok pdf_link =>
        match progress_update (progress w) (task p) 100 with
        | Ok pr => (loop_test pdf_link, set_progress pr w)
        | Raise e => on_exception e pdf_link w
        end
    | Raise e => on_exception e JNull w
    end
  else (Polling, w).

(** One resumption of a [poll_for_pdf] coroutine: it runs to its next
    suspension point, or to its end. *)
Definition poll_step (c : AsyncClient) (p : poller) (w : world) : poller * world :=
  match pc p with
  | Polling =>
      let '(a, w1) := exchange (status_request c (job_id p)) w in
      match a with
      | Fail cls => (set_pc p (Raised (TransportError cls)), w1)
      | Resp doc_req =>
          let '(st, w2) := on_status p doc_req w1 in (set_pc p st, w2)
      end
  | Sleeping pdf_link => (set_pc p (loop_test pdf_link), w)
  | Returned _ | Raised _ => (p, w)
  end.

Definition outcome (p : poller) : option (py json) :=
  match pc p with
  | Returned v => Some (Ok v)
  | Raised e => Some (Raise e)
  | _ => None
  end.

(** [await poll_for_pdf(client, job_id, task, progress)], given [fuel]
    resumptions; [None] when the coroutine has not finished by then. *)
Fixpoint poll_for_pdf (fuel : nat) (c : AsyncClient) (p : poller) (w : world)
  : option (py json) * world :=
  match outcome p with
  | Some r => (Some r, w)
  | None =>
      match fuel with
      | O => (None, w)
      | Datatypes.S fuel' =>
          let '(p', w') := poll_step c p w in poll_for_pdf fuel' c p' w'
      end
  end.

Definition new_poller (jid : json) (t : nat) : poller :=
  {| job_id := jid; task := t; pc := Polling |}.

Definition handle_post_job (token resource input_type : string) (fuel : nat) (s : S)
  : option (py json) * world :=
  let client := new_client token in
  let w0 := init_world s in
  let '(pr, t) := add_task (progress w0) "Working" false in
  let '(a, w1) := post_job client resource input_type (set_progress pr w0) in
  match r ← await_reply a; response_job_id r with
  | Raise e => (Some (Raise e), w1)
  | Ok jid => poll_for_pdf fuel client (new_poller jid t) w1
  end.

(** The [for entry in data] loop of [handle_post_template_jobs]; [jobs] is
    the list the loop appends to. *)
Fixpoint create_jobs (c : AsyncClient) (template : string) (data : list json)
    (jobs : list poller) (w : world) : py (list poller) * world :=
  match data with
  | [] => (Ok jobs, w)
  | entry :: rest =>
      let '(pr, t) := add_task (progress w) "Working" false in
      let '(a, w1) := post_template_job c template entry (set_progress pr w) in
      match r ← await_reply a; response_job_id r with
      | Raise e => (Raise e, w1)
      | Ok jid => create_jobs c template rest (jobs ++ [new_poller jid t]) w1
      end
  end.

Definition returned (p : poller) : option json :=
  match pc p with
  | Returned v => Some v
  | _ => None
  end.

(** [await asyncio.gather] on the coroutines of [jobs].  They are resumed one at a time
    in the order [sched] names them; a name that is no coroutine of the
    batch is skipped.  The wait ends with the list of the returned values,
    in the order of [jobs], once every coroutine has returned, and with the
    exception of the first coroutine that raises.  [None]: [sched] ran out
    first. *)
Fixpoint gather (c : AsyncClient) (sched : list nat) (jobs : list poller) (w : world)
  : option (py (list json)) * world :=
  match mapM returned jobs with
  | Some pdfs => (Some (Ok pdfs), w)
  | None =>
      match sched with
      | [] => (None, w)
      | i :: sched' =>
          match jobs !! i with
          | None => gather c sched' jobs w
          | Some p =>
              let '(p', w') := poll_step c p w in
              match pc p' with
              | Raised e => (Some (Raise e), w')
              | _ => gather c sched' (<[i := p']> jobs) w'
              end
          end
      end
  end.

Definition handle_post_template_jobs (token template : string) (data : list json)
    (sched : list nat) (s : S) : option (py (list json)) * world :=
  let client := new_client token in
  match create_jobs client template data [] (init_world s) with
  | (Raise e, w) => (Some (Raise e), w)
  | (Ok jobs, w) => gather client sched jobs w
  end.

(** [echo(..)] onto the lines printed so far. *)
Definition echo (line : string) (out : list string) : list string := out ++ [line].

(** The command [add_job_template template file], with [data] the value of
    [json.loads(file.read())]: the lines it prints. *)
Definition add_job_template (template : string) (data : json) (token : string)
    (sched : list nat) (s : S) : option (py (list string)) :=
  let out := echo "Creating PDF from template with given data." [] in
  match fst (handle_post_template_jobs token template [data] sched s) with
  | None => None
  | Some r => Some (pdfs ← r; pdf ← list_getitem pdfs 0; Ok (echo (py_str pdf) out))
  end.

(** The events of serving the requests [qs] one after the other, each one
    sent in the state the answer to the one before left. *)
Fixpoint serve_seq (s : S) (qs : list request) : list event * S :=
  match qs with
  | [] => ([], s)
  | q :: qs' =>
      let '(a, s1) := serve s q in
      let '(evs, s2) := serve_seq s1 qs' in
      (EvHttp q a :: evs, s2)
  end.

(** [n] resumptions of a poller in a row. *)
Fixpoint resume (n : nat) (c : AsyncClient) (p : poller) (w : world) : poller * world :=
  match n with
  | O => (p, w)
  | Datatypes.S n' => let '(p', w') := poll_step c p w in resume n' c p' w'
  end.

(** Among the events [evs], a status request for job [jid] was answered by a
    200 response with [v] at [document.url]. *)
Definition seen_url (c : AsyncClient) (jid v : json) (evs : list event) : Prop :=
  ∃ doc, EvHttp (status_request c jid) (Resp doc) ∈ evs ∧
         status_code doc = 200 ∧ document_url doc = Ok v.

(** Among the events [evs], a status request for job [jid] made [e] leave
    the poller: the call failed in transport, or a 200 response had a body
    that is not JSON. *)
Definition seen_failure (c : AsyncClient) (jid : json) (e : exn) (evs : list event) : Prop :=
  (∃ cls, e = TransportError cls ∧ EvHttp (status_request c jid) (Fail cls) ∈ evs) ∨
  (e = JSONDecodeError ∧
   ∃ doc, EvHttp (status_request c jid) (Resp doc) ∈ evs ∧
          status_code doc = 200 ∧ content doc = None).

(** The state of a poller is accounted for by the events [evs] of its run. *)
Definition justified (c : AsyncClient) (p : poller) (evs : list event) : Prop :=
  match pc p with
  | Polling => True
  | Sleeping v => v ≠ JNull → seen_url c (job_id p) v evs
  | Returned v => v ≠ JNull ∧ seen_url c (job_id p) v evs
  | Raised e => seen_failure c (job_id p) e evs
  end.


(** What a poller of job [jid] can add to a trace: a status request for
    [jid] with an answer of the service, or the sleep of the poll interval. *)
Definition from_job (c : AsyncClient) (jid : json) (e : event) : Prop :=
  e = EvSleep poll_interval_ms ∨
  ∃ a s, e = EvHttp (status_request c jid) a ∧ a = (serve s (status_request c jid)).1.

(** The progress display of a batch follows its pollers: one task per poller,
    the poller at position [i] owns task [i], a poller that sleeps holds no
    document, and the task of a poller that has returned is complete. *)
Definition tracked (prog : list Task) (jobs : list poller) : Prop :=
  length prog = length jobs ∧
  ∀ i p, jobs !! i = Some p →
    task p = i ∧
    (∀ v, pc p = Sleeping v → v = JNull) ∧
    (∀ v, pc p = Returned v → completed <$> prog !! i = Some 100).

(** A task as the handlers add it, at its start or complete. *)
Definition tidy (t : Task) : Prop :=
  description t = "Working" ∧ started t = false ∧ (completed t = 0 ∨ completed t = 100).

(** The request of [login]. *)
Definition login_request (email password : string) : form_request :=
  {| form_url := api_url "login/access-token";
     form_data := [("username", email); ("password", password)] |}.

(** The command [login]: the lines it prints and how it ends, [post] being
    the exchange [httpx.post] makes. *)
Definition login (email password : string) (post : form_request -> reply)
  : list string * ending :=
  let out := echo ("Attempting login for " +:+ email +:+ ".") [] in
  match post (login_request email password) with
  | Fail cls => (out, Uncaught (TransportError cls))
  | Resp token_req =>
      if negb (status_code token_req =? 200)%Z then
        (echo "Invalid password" out, Exit 1)
      else
        let out := echo "Login succesful, use the following environment variable:" out in
        match j ← response_json token_req; dict_get j "access_token" with
        | Raise e => (out, Uncaught e)
        | Ok access_token =>
            (echo ("PAPERO_API_TOKEN=" +:+ py_str access_token) out, Finished)
        end
  end.

(** The command [add_job url]: the lines it prints. *)
Definition add_job (url token : string) (fuel : nat) (s : S) : option (py (list string)) :=
  let out := echo ("Resource: " +:+ url) (echo "Creating PDF of URL" []) in
  match (handle_post_job token url "url" fuel s).1 with
  | None => None
  | Some r => Some (pdf ← r; Ok (echo (py_str pdf) out))
  end.

(** The command [add_job_html file], with [html] the text [file.read()]
    gives. *)
Definition add_job_html (html token : string) (fuel : nat) (s : S)
  : option (py (list string)) :=
  let out := echo "Converting PDF to HTML" [] in
  match (handle_post_job token html "html" fuel s).1 with
  | None => None
  | Some r => Some (pdf ← r; Ok (echo (py_str pdf) out))
  end.


(** ** Facts about one resumption of the poller *)

Lemma set_pc_same (p : poller) : set_pc p (pc p) = p.
Proof. by destruct p. Qed.

Lemma loop_test_outcome (v : json) :
  (v = JNull ∧ loop_test v = Polling) ∨ (v ≠ JNull ∧ loop_test v = Returned v).
Proof. destruct v; naive_solver. Qed.

(** The exceptions the [try] block can raise. *)
Lemma document_url_raises (r : response) (e : exn) :
  document_url r = Raise e →
  (e = JSONDecodeError ∧ content r = None) ∨
  (caught e = true ∧ ∃ j, content r = Some j).
Proof.
  unfold document_url, response_json. destruct (content r) as [j|]; simpl.
  - intros H. right. split; [|by eauto].
    destruct j; simpl in H; try by inversion H.
    destruct (dict_lookup kv "document") as [d|]; simpl in H; [|by inversion H].
    destruct d; simpl in H; try by inversion H.
    destruct (dict_lookup kv0 "url"); by inversion H.
  - intros H. left. by inversion H.
Qed.

Lemma progress_update_raises (pr : list Task) (t : nat) (c : Z) (e : exn) :
  progress_update pr t c = Raise e → e = KeyError ∧ (length pr ≤ t)%nat.
Proof.
  unfold progress_update. destruct (pr !! t) eqn:E; [done|].
  intros [= <-]. split; [done|]. by apply lookup_ge_None.
Qed.

Lemma progress_update_ok (pr : list Task) (t : nat) (c : Z) :
  (t < length pr)%nat →
  ∃ pr', progress_update pr t c = Ok pr' ∧ length pr' = length pr ∧
         completed <$> pr' !! t = Some c.
Proof.
  intros Ht. unfold progress_update.
  destruct (lookup_lt_is_Some_2 pr t Ht) as [tk ->].
  eexists; split; [done|]. rewrite length_insert. split; [done|].
  by rewrite list_lookup_insert_eq.
Qed.

(** What one resumption in state [Polling] does, by the answer [a] the
    status request gets. *)
Lemma poll_step_polling (c : AsyncClient) (p : poller) (w : world) a s' :
  pc p = Polling →
  serve (srv w) (status_request c (job_id p)) = (a, s') →
  let w1 := {| srv := s'; progress := progress w;
               trace := trace w ++ [EvHttp (status_request c (job_id p)) a] |} in
  poll_step c p w =
    match a with
    | Fail cls => (set_pc p (Raised (TransportError cls)), w1)
    | Resp doc_req => (set_pc p (on_status p doc_req w1).1, (on_status p doc_req w1).2)
    end.
Proof.
  intros Hpc Hs. unfold poll_step, exchange. rewrite Hpc, Hs. simpl.
  destruct a; [|done]. by destruct (on_status _ _ _).
Qed.

Lemma on_status_not_200 (p : poller) (r : response) (w : world) :
  status_code r ≠ 200 → on_status p r w = (Polling, w).
Proof.
  intros H. unfold on_status. by destruct (Z.eqb_spec (status_code r) 200).
Qed.

Lemma on_status_found (p : poller) (r : response) (w : world) (v : json) :
  status_code r = 200 → document_url r = Ok v →
  (task p < length (progress w))%nat →
  ∃ pr, progress_update (progress w) (task p) 100 = Ok pr ∧
        on_status p r w = (loop_test v, set_progress pr w).
Proof.
  intros H200 Hv Ht. unfold on_status. rewrite H200, Hv. simpl.
  destruct (progress_update_ok (progress w) (task p) 100 Ht) as (pr & -> & _).
  by eauto.
Qed.

Lemma on_status_lacks (p : poller) (r : response) (w : world) (e : exn) :
  status_code r = 200 → document_url r = Raise e → caught e = true →
  on_status p r w = (Sleeping JNull, log (EvSleep poll_interval_ms) w).
Proof.
  intros H200 He Hc. unfold on_status, on_exception. by rewrite H200, He, Hc.
Qed.

Lemma on_status_undecodable (p : poller) (r : response) (w : world) :
  status_code r = 200 → content r = None →
  on_status p r w = (Raised JSONDecodeError, w).
Proof.
  intros H200 Hc. unfold on_status, on_exception, document_url, response_json.
  by rewrite H200, Hc.
Qed.

(** A finished coroutine is not resumed into anything new. *)
Lemma poll_for_pdf_finished (fuel : nat) (c : AsyncClient) (p : poller) (w : world) r :
  outcome p = Some r → poll_for_pdf fuel c p w = (Some r, w).
Proof. intros H. destruct fuel; simpl; by rewrite H. Qed.

Lemma poll_for_pdf_unfold (fuel : nat) (c : AsyncClient) (p : poller) (w : world) :
  outcome p = None →
  poll_for_pdf (Datatypes.S fuel) c p w =
  poll_for_pdf fuel c (poll_step c p w).1 (poll_step c p w).2.
Proof. intros H. simpl. rewrite H. by destruct (poll_step c p w). Qed.

(** ** The poller, claim by claim *)

(** C2. When a status request is answered by a 200 response whose JSON body
    holds the string [X] at [document.url], the poller marks its progress
    task complete and returns exactly [JStr X]: the run ends with that one
    request in the trace, whatever fuel is left, and resuming the finished
    coroutine changes nothing. *)
Theorem poll_returns_document_url (c : AsyncClient) (p : poller) (w : world)
    (r : response) (s' : S) (X : string) :
  pc p = Polling →
  (task p < length (progress w))%nat →
  serve (srv w) (status_request c (job_id p)) = (Resp r, s') →
  status_code r = 200 →
  document_url r = Ok (JStr X) →
  ∃ w',
    (∀ fuel, poll_for_pdf (Datatypes.S fuel) c p w = (Some (Ok (JStr X)), w')) ∧
    trace w' = trace w ++ [EvHttp (status_request c (job_id p)) (Resp r)] ∧
    completed <$> progress w' !! task p = Some 100 ∧
    poll_step c (set_pc p (Returned (JStr X))) w' = (set_pc p (Returned (JStr X)), w').
Proof.
  intros Hpc Ht Hs H200 Hurl.
  pose proof (poll_step_polling c p w _ _ Hpc Hs) as Hstep. simpl in Hstep.
  match type of Hstep with context [on_status p r ?x] => set (w1 := x) in * end.
  destruct (on_status_found p r w1 _ H200 Hurl Ht) as (pr & Hpr & Hon).
  rewrite Hon in Hstep. simpl in Hstep.
  exists (set_progress pr w1). split; [|split; [done|split]].
  - intros fuel. rewrite poll_for_pdf_unfold by (unfold outcome; by rewrite Hpc).
    rewrite Hstep. simpl fst; simpl snd. by apply poll_for_pdf_finished.
  - simpl. destruct (progress_update_ok (progress w) (task p) 100 Ht) as (pr' & Hpr' & _ & Hc).
    simpl in Hpr. rewrite Hpr in Hpr'. by inversion Hpr'; subst.
  - done.
Qed.

(** The steps of the poller around a 200 response whose JSON body has no
    [document.url]: the attempt, the sleep, and the next attempt. *)
Lemma url_missing_steps (c : AsyncClient) (p : poller) (w : world)
    (r : response) (s' : S) (j : json) :
  pc p = Polling →
  serve (srv w) (status_request c (job_id p)) = (Resp r, s') →
  status_code r = 200 →
  content r = Some j →
  (∀ v, document_url r ≠ Ok v) →
  let q := status_request c (job_id p) in
  let w1 := {| srv := s'; progress := progress w;
               trace := trace w ++ [EvHttp q (Resp r); EvSleep 300] |} in
  poll_step c p w = (set_pc p (Sleeping JNull), w1) ∧
  outcome (set_pc p (Sleeping JNull)) = None ∧
  poll_step c (set_pc p (Sleeping JNull)) w1 = (set_pc p Polling, w1) ∧
  outcome (set_pc p Polling) = None ∧
  ∀ a s'', serve s' q = (a, s'') →
    ∃ evs, trace (poll_step c (set_pc p Polling) w1).2 = trace w1 ++ EvHttp q a :: evs.
Proof.
  intros Hpc Hs H200 Hj Hno q w1.
  destruct (document_url r) as [v|e] eqn:He; [by destruct (Hno v)|].
  destruct (document_url_raises r e He) as [[_ Hnone]|[Hc _]]; [congruence|].
  split; [|split; [done|split; [done|split; [done|]]]].
  - rewrite (poll_step_polling c p w _ _ Hpc Hs).
    rewrite (on_status_lacks p r _ e H200 He Hc). simpl.
    unfold log, w1, q. simpl. by rewrite <- app_assoc.
  - intros a s'' Hs''.
    assert (Hpc' : pc (set_pc p Polling) = Polling) by done.
    pose proof (poll_step_polling c (set_pc p Polling) w1 a s'' Hpc' Hs'') as Hstep.
    simpl in Hstep. rewrite Hstep. clear Hstep.
    destruct a as [doc|cls]; simpl; [|by exists []].
    unfold on_status, on_exception.
    repeat case_match; simpl; eauto using app_assoc.
    all: try by exists [].
    all: eexists; by rewrite <- app_assoc.
Qed.

(** C3, as amended.  A 200 response whose body is JSON without the nested
    [document.url] is taken as not ready: the poller neither raises nor
    returns, it logs the 300 ms sleep, and after the sleep it is back at the
    top of the loop, where its next resumption sends the status request
    again. *)
Theorem poll_retries_when_url_missing (c : AsyncClient) (p : poller) (w : world)
    (r : response) (s' : S) (j : json) :
  pc p = Polling →
  serve (srv w) (status_request c (job_id p)) = (Resp r, s') →
  status_code r = 200 →
  content r = Some j →
  (∀ v, document_url r ≠ Ok v) →
  let q := status_request c (job_id p) in
  let w1 := {| srv := s'; progress := progress w;
               trace := trace w ++ [EvHttp q (Resp r); EvSleep 300] |} in
  poll_step c p w = (set_pc p (Sleeping JNull), w1) ∧
  outcome (set_pc p (Sleeping JNull)) = None ∧
  poll_step c (set_pc p (Sleeping JNull)) w1 = (set_pc p Polling, w1) ∧
  outcome (set_pc p Polling) = None ∧
  ∀ a s'', serve s' q = (a, s'') →
    ∃ evs, trace (poll_step c (set_pc p Polling) w1).2 = trace w1 ++ EvHttp q a :: evs.
Proof. apply url_missing_steps. Qed.

(** Every way a resumption in state [Polling] can go. *)
Lemma poll_step_cases (c : AsyncClient) (p : poller) (w : world) a s' :
  pc p = Polling →
  serve (srv w) (status_request c (job_id p)) = (a, s') →
  let w1 := {| srv := s'; progress := progress w;
               trace := trace w ++ [EvHttp (status_request c (job_id p)) a] |} in
  (∃ cls, a = Fail cls ∧
          poll_step c p w = (set_pc p (Raised (TransportError cls)), w1)) ∨
  (∃ r, a = Resp r ∧ status_code r ≠ 200 ∧
        poll_step c p w = (set_pc p Polling, w1)) ∨
  (∃ r, a = Resp r ∧ status_code r = 200 ∧ content r = None ∧
        poll_step c p w = (set_pc p (Raised JSONDecodeError), w1)) ∨
  (∃ r e, a = Resp r ∧ status_code r = 200 ∧ document_url r = Raise e ∧
          caught e = true ∧
          poll_step c p w = (set_pc p (Sleeping JNull), log (EvSleep poll_interval_ms) w1)) ∨
  (∃ r v pr, a = Resp r ∧ status_code r = 200 ∧ document_url r = Ok v ∧
             progress_update (progress w) (task p) 100 = Ok pr ∧
             poll_step c p w = (set_pc p (loop_test v), set_progress pr w1)) ∨
  (∃ r v, a = Resp r ∧ status_code r = 200 ∧ document_url r = Ok v ∧
          (length (progress w) ≤ task p)%nat ∧
          poll_step c p w = (set_pc p (Sleeping v), log (EvSleep poll_interval_ms) w1)).
Proof.
  intros Hpc Hs w1. rewrite (poll_step_polling c p w a s' Hpc Hs). fold w1.
  destruct a as [r|cls]; [|left; by eauto]. right.
  destruct (decide (status_code r = 200)) as [H200|Hne].
  2: { left. exists r. by rewrite on_status_not_200. }
  right. destruct (document_url r) as [v|e] eqn:He.
  - right; right.
    destruct (progress_update (progress w) (task p) 100) as [pr|e] eqn:Hup.
    + left. exists r, v, pr. unfold on_status. simpl. by rewrite H200, He, Hup.
    + right. destruct (progress_update_raises _ _ _ _ Hup) as [-> Hlen].
      exists r, v. unfold on_status. simpl. by rewrite H200, He, Hup.
  - destruct (document_url_raises r e He) as [[-> Hnone]|[Hc _]].
    + left. exists r. by rewrite on_status_undecodable.
    + right; left. exists r, e. by rewrite (on_status_lacks p r w1 e).
Qed.

Lemma pending_not_found (r : response) :
  pending (Resp r) = true → ∀ v, v ≠ JNull → ¬ (status_code r = 200 ∧ document_url r = Ok v).
Proof.
  unfold pending. intros H v Hv [H200 Hd]. rewrite H200, Hd in H. simpl in H.
  by destruct v.
Qed.

(** A pending answer keeps the poller in its loop and costs one status
    request. *)
Lemma poll_step_pending (c : AsyncClient) (p : poller) (w : world) :
  pc p = Polling →
  pending (serve (srv w) (status_request c (job_id p))).1 = true →
  let st := poll_step c p w in
  (pc st.1 = Polling ∨ pc st.1 = Sleeping JNull) ∧
  job_id st.1 = job_id p ∧
  count_polls (trace st.2) = Datatypes.S (count_polls (trace w)).
Proof.
  intros Hpc Hpend. destruct (serve _ _) as [a s'] eqn:Hs. simpl in Hpend.
  assert (Hcount : ∀ tail, Forall (λ e, is_status_poll e = false) tail →
            count_polls ((trace w ++ [EvHttp (status_request c (job_id p)) a]) ++ tail)
            = Datatypes.S (count_polls (trace w))).
  { intros tail Htail. unfold count_polls.
    rewrite !List.filter_app, !length_app. simpl.
    assert (List.filter is_status_poll tail = []) as ->.
    { induction Htail as [|e l He _ IH]; [done|]. simpl. by rewrite He. }
    simpl. lia. }
  destruct (poll_step_cases c p w a s' Hpc Hs)
    as [(cls & -> & _)|[(r & -> & Hne & ->)|[(r & -> & H200 & Hnone & _)|
       [(r & e & -> & H200 & He & Hc & ->)|[(r & v & pr & -> & H200 & Hv & Hup & ->)|
        (r & v & -> & H200 & Hv & Hlen & ->)]]]]]; simpl.
  - done.
  - split; [by left|split; [done|]]. rewrite <- (Hcount []) by done. by rewrite app_nil_r.
  - unfold pending, document_url, response_json in Hpend.
    by rewrite H200, Hnone in Hpend.
  - split; [by right|split; [done|]]. apply Hcount. by repeat constructor.
  - unfold pending in Hpend. rewrite H200, Hv in Hpend. simpl in Hpend.
    destruct v; try done. split; [by left|split; [done|]].
    rewrite <- (Hcount []) by done. by rewrite app_nil_r.
  - unfold pending in Hpend. rewrite H200, Hv in Hpend. simpl in Hpend.
    destruct v; try done. split; [by right|split; [done|]].
    apply Hcount. by repeat constructor.
Qed.

(** ** Runs of the poller *)

Lemma poll_step_finished (c : AsyncClient) (p : poller) (w : world) r :
  outcome p = Some r → poll_step c p w = (p, w).
Proof. unfold outcome, poll_step. by destruct (pc p). Qed.

Lemma resume_finished (n : nat) (c : AsyncClient) (p : poller) (w : world) r :
  outcome p = Some r → resume n c p w = (p, w).
Proof.
  intros H. induction n as [|n IH]; [done|].
  simpl. by rewrite (poll_step_finished c p w r H).
Qed.

Lemma resume_S (n : nat) (c : AsyncClient) (p : poller) (w : world) :
  resume (Datatypes.S n) c p w = resume n c (poll_step c p w).1 (poll_step c p w).2.
Proof. simpl. by destruct (poll_step c p w). Qed.

Lemma resume_add (n m : nat) (c : AsyncClient) (p : poller) (w : world) :
  resume (n + m) c p w = resume m c (resume n c p w).1 (resume n c p w).2.
Proof.
  revert p w. induction n as [|n IH]; intros p w; [done|].
  rewrite Nat.add_succ_l, !resume_S. apply IH.
Qed.

(** [poll_for_pdf] is the poller resumed until it finishes. *)
Lemma poll_for_pdf_resume (fuel : nat) (c : AsyncClient) (p : poller) (w : world) :
  poll_for_pdf fuel c p w = (outcome (resume fuel c p w).1, (resume fuel c p w).2).
Proof.
  revert p w. induction fuel as [|fuel IH]; intros p w.
  - simpl. by destruct (outcome p).
  - destruct (outcome p) as [r|] eqn:Hout.
    + rewrite (poll_for_pdf_finished _ c p w r Hout), (resume_finished _ c p w r Hout).
      simpl. by rewrite Hout.
    + rewrite (poll_for_pdf_unfold fuel c p w Hout), resume_S. apply IH.
Qed.

(** While the service keeps giving pending answers the poller stays in its
    loop, and every two resumptions hold at least one status request. *)
Lemma resume_pending (c : AsyncClient) (jid : json) :
  (∀ s, pending (serve s (status_request c jid)).1 = true) →
  ∀ n p w,
    job_id p = jid →
    pc p = Polling ∨ pc p = Sleeping JNull →
    let st := resume n c p w in
    (pc st.1 = Polling ∨ pc st.1 = Sleeping JNull) ∧
    job_id st.1 = jid ∧
    (2 * count_polls (trace w) + match pc st.1 with Sleeping _ => 1 | _ => 0 end + n
     ≤ 2 * count_polls (trace st.2) + match pc p with Sleeping _ => 1 | _ => 0 end)%nat.
Proof.
  intros Hpend n. induction n as [|n IH]; intros p w Hjid Hidle.
  - simpl. split; [done|split; [done|lia]].
  - rewrite resume_S. destruct Hidle as [Hpc|Hpc].
    + destruct (poll_step_pending c p w Hpc) as (Hidle' & Hjid' & Hcount).
      { rewrite Hjid. apply Hpend. }
      destruct (poll_step c p w) as [p1 w1]. simpl in *.
      destruct (IH p1 w1) as (Hi & Hj & Hc); [congruence|done|].
      split; [done|split; [done|]]. rewrite Hcount in Hc.
      rewrite Hpc. destruct Hidle' as [H1|H1]; rewrite H1 in Hc; lia.
    + assert (poll_step c p w = (set_pc p Polling, w)) as ->.
      { unfold poll_step. by rewrite Hpc. }
      simpl. destruct (IH (set_pc p Polling) w) as (Hi & Hj & Hc); [done|by left|].
      split; [done|split; [done|]]. simpl in Hc.
      rewrite Hpc. lia.
Qed.

Lemma outcome_idle (p : poller) :
  pc p = Polling ∨ pc p = Sleeping JNull → outcome p = None.
Proof. unfold outcome. by intros [-> | ->]. Qed.

(** ** The state of a poller is accounted for by its trace *)

Lemma seen_url_mono (c : AsyncClient) (jid v : json) (evs more : list event) :
  seen_url c jid v evs → seen_url c jid v (evs ++ more).
Proof. intros (doc & Hin & H). exists doc. split; [|done]. apply elem_of_app. by left. Qed.

Lemma seen_failure_mono (c : AsyncClient) (jid : json) (e : exn) (evs more : list event) :
  seen_failure c jid e evs → seen_failure c jid e (evs ++ more).
Proof.
  intros [(cls & -> & Hin)|(-> & doc & Hin & H)]; [left|right].
  - exists cls. split; [done|]. apply elem_of_app. by left.
  - split; [done|]. exists doc. split; [|done]. apply elem_of_app. by left.
Qed.

Lemma justified_mono (c : AsyncClient) (p : poller) (evs more : list event) :
  justified c p evs → justified c p (evs ++ more).
Proof.
  unfold justified. destruct (pc p); [done| | |].
  - intros H Hv. by apply seen_url_mono, H.
  - intros [Hv H]. split; [done|]. by apply seen_url_mono.
  - apply seen_failure_mono.
Qed.

Lemma justified_loop_test (c : AsyncClient) (p : poller) (v : json) (evs : list event) :
  (v ≠ JNull → seen_url c (job_id p) v evs) →
  justified c (set_pc p (loop_test v)) evs.
Proof.
  intros H. destruct (loop_test_outcome v) as [[_ Hl]|[Hv Hl]];
    unfold justified; simpl; rewrite Hl; [done|]. split; [done|]. by apply H.
Qed.

Lemma poll_step_justified (c : AsyncClient) (p : poller) (w : world) (tr0 evs : list event) :
  trace w = tr0 ++ evs →
  justified c p evs →
  ∃ more,
    trace (poll_step c p w).2 = tr0 ++ (evs ++ more) ∧
    Forall (λ e, is_post e = false) more ∧
    justified c (poll_step c p w).1 (evs ++ more) ∧
    job_id (poll_step c p w).1 = job_id p.
Proof.
  intros Htr Hj. destruct (pc p) as [|v|v|e] eqn:Hpc.
  - destruct (serve (srv w) (status_request c (job_id p))) as [a s'] eqn:Hs.
    set (ev := EvHttp (status_request c (job_id p)) a).
    assert (Hev : is_post ev = false) by done.
    assert (Hin : ∀ tail, ev ∈ evs ++ ev :: tail).
    { intros tail. apply elem_of_app. right. by left. }
    destruct (poll_step_cases c p w a s' Hpc Hs)
      as [(cls & -> & ->)|[(r & -> & Hne & ->)|[(r & -> & H200 & Hnone & ->)|
         [(r & e & -> & H200 & He & Hc & ->)|[(r & v & pr & -> & H200 & Hv & Hup & ->)|
          (r & v & -> & H200 & Hv & Hlen & ->)]]]]]; simpl; rewrite Htr.
    + exists [ev]. split; [by rewrite <- app_assoc|]. split; [by repeat constructor|].
      split; [|done]. unfold justified; simpl. left. exists cls. split; [done|apply Hin].
    + exists [ev]. split; [by rewrite <- app_assoc|]. split; [by repeat constructor|]. done.
    + exists [ev]. split; [by rewrite <- app_assoc|]. split; [by repeat constructor|].
      split; [|done]. unfold justified; simpl. right. split; [done|].
      exists r. split; [apply Hin|done].
    + exists [ev; EvSleep poll_interval_ms].
      split; [by rewrite <- !app_assoc|]. split; [by repeat constructor|].
      split; [|done]. unfold justified; simpl. done.
    + exists [ev]. split; [by rewrite <- app_assoc|]. split; [by repeat constructor|].
      split; [|done]. apply justified_loop_test. intros _. exists r. split; [apply Hin|done].
    + exists [ev; EvSleep poll_interval_ms].
      split; [by rewrite <- !app_assoc|]. split; [by repeat constructor|].
      split; [|done]. unfold justified; simpl. intros _. exists r. split; [apply Hin|done].
  - assert (poll_step c p w = (set_pc p (loop_test v), w)) as ->.
    { unfold poll_step. by rewrite Hpc. }
    exists []. rewrite app_nil_r. split; [done|]. split; [done|]. split; [|done].
    apply justified_loop_test. unfold justified in Hj. by rewrite Hpc in Hj.
  - rewrite (poll_step_finished c p w (Ok v)) by (unfold outcome; by rewrite Hpc).
    exists []. by rewrite app_nil_r.
  - rewrite (poll_step_finished c p w (Raise e)) by (unfold outcome; by rewrite Hpc).
    exists []. by rewrite app_nil_r.
Qed.

Lemma resume_justified (c : AsyncClient) (n : nat) :
  ∀ (p : poller) (w : world) (tr0 evs : list event),
    trace w = tr0 ++ evs →
    justified c p evs →
    ∃ more,
      trace (resume n c p w).2 = tr0 ++ (evs ++ more) ∧
      justified c (resume n c p w).1 (evs ++ more) ∧
      job_id (resume n c p w).1 = job_id p.
Proof.
  induction n as [|n IH]; intros p w tr0 evs Htr Hj.
  - exists []. by rewrite app_nil_r.
  - rewrite resume_S.
    destruct (poll_step_justified c p w tr0 evs Htr Hj) as (m1 & Htr1 & _ & Hj1 & Hid1).
    destruct (IH _ _ tr0 (evs ++ m1) Htr1 Hj1) as (m2 & Htr2 & Hj2 & Hid2).
    exists (m1 ++ m2). rewrite (app_assoc evs m1 m2).
    split; [done|]. split; [done|]. congruence.
Qed.

(** One attempt on a 200 response with a JSON body that has no
    [document.url], and the sleep after it: two resumptions that bring the
    poller back to where it was. *)
Lemma resume_attempt_and_wait (c : AsyncClient) (p : poller) (w : world) (r : response) s' :
  pc p = Polling →
  serve (srv w) (status_request c (job_id p)) = (Resp r, s') →
  status_code r = 200 →
  is_Some (content r) →
  (∀ v, document_url r ≠ Ok v) →
  resume 2 c p w =
    (p, {| srv := s'; progress := progress w;
           trace := trace w ++ [EvHttp (status_request c (job_id p)) (Resp r);
                                EvSleep poll_interval_ms] |}).
Proof.
  intros Hpc Hs H200 [j Hj] Hno.
  destruct (url_missing_steps c p w r s' j Hpc Hs H200 Hj Hno)
    as (H1 & _ & H2 & _).
  rewrite resume_S, H1. simpl fst; simpl snd. rewrite resume_S, H2. simpl.
  f_equal. rewrite <- Hpc. apply set_pc_same.
Qed.

(** C6, as amended.  While the status response stays the same and holds no
    document URL the poller returns no result, whatever the fuel; and when
    that response is a 200 with a JSON body, every attempt is followed by the
    fixed sleep before the next status request: [2 * n] resumptions leave [n]
    request-then-sleep pairs in the trace. *)
Theorem poll_unchanged_status (c : AsyncClient) (p : poller) (w : world) (r : response) :
  pc p = Polling →
  (∀ s, (serve s (status_request c (job_id p))).1 = Resp r) →
  (∀ v, ¬ (status_code r = 200 ∧ document_url r = Ok v)) →
  (∀ fuel v, (poll_for_pdf fuel c p w).1 ≠ Some (Ok v)) ∧
  (status_code r = 200 → is_Some (content r) →
   ∀ n, ∃ w',
     poll_for_pdf (2 * n) c p w = (None, w') ∧
     trace w' = trace w ++
       concat (replicate n [EvHttp (status_request c (job_id p)) (Resp r);
                            EvSleep poll_interval_ms])).
Proof.
  intros Hpc Hsame Hno. split.
  - intros fuel v. rewrite poll_for_pdf_resume. simpl.
    assert (Hinv : ∀ n p' w', job_id p' = job_id p →
              (∀ u, pc p' ≠ Returned u) → (∀ u, u ≠ JNull → pc p' ≠ Sleeping u) →
              ∀ u, pc (resume n c p' w').1 ≠ Returned u).
    { clear fuel v. induction n as [|n IH]; intros p' w' Hid Hr Hsl; [apply Hr|].
      rewrite resume_S.
      destruct (pc p') as [|u0|u0|e] eqn:Hpc'.
      - destruct (serve (srv w') (status_request c (job_id p'))) as [a s'] eqn:Hs.
        pose proof (Hsame (srv w')) as Ha. rewrite <- Hid, Hs in Ha. simpl in Ha. subst a.
        destruct (poll_step_cases c p' w' _ s' Hpc' Hs)
          as [(cls & [=] & _)|[(r0 & [= <-] & Hne & ->)|[(r0 & [= <-] & H200 & Hnone & ->)|
             [(r0 & e & [= <-] & H200 & He & Hc & ->)|[(r0 & v & pr & [= <-] & H200 & Hv & _)|
              (r0 & v & [= <-] & H200 & Hv & _)]]]]]; simpl.
        + apply IH; simpl; by try done.
        + apply IH; simpl; by try done.
        + apply IH; simpl; try done. intros u Hu [=]. by subst.
        + by destruct (Hno v).
        + by destruct (Hno v).
      - assert (poll_step c p' w' = (set_pc p' (loop_test u0), w')) as ->.
        { unfold poll_step. by rewrite Hpc'. }
        simpl. destruct (loop_test_outcome u0) as [[-> Hl]|[Hu0 _]].
        + apply IH; simpl; by try done.
        + by destruct (Hsl u0 Hu0).
      - by destruct (Hr u0).
      - rewrite (poll_step_finished c p' w' (Raise e)) by (unfold outcome; by rewrite Hpc').
        simpl. apply IH; try done; by rewrite Hpc'. }
    intros Hout. unfold outcome in Hout.
    destruct (pc (resume fuel c p w).1) as [|?|u|?] eqn:Hfin; try done.
    eapply (Hinv fuel p w); [done| | |exact Hfin]; intros; by rewrite Hpc.
  - intros H200 Hjson n. rewrite poll_for_pdf_resume.
    assert (Hrun : ∀ n w0, ∃ s',
              resume (2 * n) c p w0 =
              (p, {| srv := s'; progress := progress w0;
                     trace := trace w0 ++
                       concat (replicate n [EvHttp (status_request c (job_id p)) (Resp r);
                                            EvSleep poll_interval_ms]) |})).
    { clear n. induction n as [|n IH]; intros w0.
      - exists (srv w0). simpl. rewrite app_nil_r. by destruct w0.
      - destruct (serve (srv w0) (status_request c (job_id p))) as [a s1] eqn:Hs.
        pose proof (Hsame (srv w0)) as Ha. rewrite Hs in Ha. simpl in Ha. subst a.
        replace (2 * Datatypes.S n)%nat with (2 + 2 * n)%nat by lia.
        rewrite resume_add.
        rewrite (resume_attempt_and_wait c p w0 r s1 Hpc Hs H200 Hjson)
          by (intros v Hv; by apply (Hno v)).
        simpl fst; simpl snd.
        destruct (IH {| srv := s1; progress := progress w0;
                        trace := trace w0 ++ [EvHttp (status_request c (job_id p)) (Resp r);
                                              EvSleep poll_interval_ms] |}) as [s2 ->].
        exists s2. simpl. by rewrite <- app_assoc. }
    destruct (Hrun n w) as [s' ->]. simpl. eexists. split.
    + unfold outcome. by rewrite Hpc.
    + done.
Qed.

(** C8.  A response whose status code is not 200 sends the poller straight
    back to the top of its loop, with the request as the only new event: the
    next resumption is the next status request.  The sleep is logged only
    after a 200 response that has no [document.url].  So a status endpoint
    that keeps answering with a non-200 status is polled in a busy loop:
    [n] resumptions are [n] status requests and no sleep. *)
Theorem poll_non_200_retries_at_once (c : AsyncClient) (p : poller) (w : world) :
  pc p = Polling →
  (task p < length (progress w))%nat →
  let q := status_request c (job_id p) in
  (∀ r s', serve (srv w) q = (Resp r, s') → status_code r ≠ 200 →
     poll_step c p w =
       (p, {| srv := s'; progress := progress w; trace := trace w ++ [EvHttp q (Resp r)] |})) ∧
  (∀ evs, trace (poll_step c p w).2 = trace w ++ evs →
     EvSleep poll_interval_ms ∈ evs →
     ∃ r, (serve (srv w) q).1 = Resp r ∧ status_code r = 200 ∧
          ∀ v, document_url r ≠ Ok v) ∧
  ((∀ s, ∃ r, (serve s q).1 = Resp r ∧ status_code r ≠ 200) →
   ∀ n, ∃ w' evs,
     poll_for_pdf n c p w = (None, w') ∧
     trace w' = trace w ++ evs ∧
     length evs = n ∧
     Forall (λ e, is_status_poll e = true) evs).
Proof.
  intros Hpc Ht q.
  assert (Hnon200 : ∀ w0 r s', serve (srv w0) q = (Resp r, s') → status_code r ≠ 200 →
            poll_step c p w0 =
              (p, {| srv := s'; progress := progress w0;
                     trace := trace w0 ++ [EvHttp q (Resp r)] |})).
  { intros w0 r s' Hs Hne. rewrite (poll_step_polling c p w0 _ _ Hpc Hs).
    rewrite on_status_not_200 by done. simpl. f_equal.
    rewrite <- Hpc. apply set_pc_same. }
  split; [apply Hnon200|split].
  - intros evs Htr Hin.
    destruct (serve (srv w) q) as [a s'] eqn:Hs.
    destruct (poll_step_cases c p w a s' Hpc Hs)
      as [(cls & -> & Hst)|[(r & -> & Hne & Hst)|[(r & -> & H200 & Hnone & Hst)|
         [(r & e & -> & H200 & He & Hc & Hst)|[(r & v & pr & -> & H200 & Hv & Hup & Hst)|
          (r & v & -> & H200 & Hv & Hlen & Hst)]]]]];
      rewrite Hst in Htr; simpl in Htr.
    1-3, 5: apply app_inv_head in Htr; subst evs;
            apply list_elem_of_singleton in Hin; discriminate.
    + exists r. split; [done|]. split; [done|]. intros v. by rewrite He.
    + lia.
  - intros Hbusy n. rewrite poll_for_pdf_resume.
    assert (Hrun : ∀ n w0, ∃ w' evs,
              resume n c p w0 = (p, w') ∧ trace w' = trace w0 ++ evs ∧
              length evs = n ∧ Forall (λ e, is_status_poll e = true) evs).
    { clear n. induction n as [|n IH]; intros w0.
      - exists w0, []. by rewrite app_nil_r.
      - destruct (serve (srv w0) q) as [a s'] eqn:Hs.
        destruct (Hbusy (srv w0)) as (r & Ha & Hne). rewrite Hs in Ha. simpl in Ha. subst a.
        rewrite resume_S, (Hnon200 w0 r s' Hs Hne). simpl fst; simpl snd.
        destruct (IH {| srv := s'; progress := progress w0;
                        trace := trace w0 ++ [EvHttp q (Resp r)] |})
          as (w' & evs & -> & Htr & Hlen & Hall).
        exists w', (EvHttp q (Resp r) :: evs). split; [done|].
        split; [by rewrite Htr; simpl; rewrite <- app_assoc|].
        split; [by simpl; rewrite Hlen|]. by constructor. }
    destruct (Hrun n w) as (w' & evs & -> & Htr & Hlen & Hall).
    exists w', evs. simpl. unfold outcome. by rewrite Hpc.
Qed.

(** C7, as amended.  The poll loop has no timeout and no cap on attempts.
    A run that ends has found a document URL, or an exception left it: a
    transport failure of the status request, or the decoding error of a 200
    response whose body is not JSON.  As long as the answers are pending the
    run does not end, whatever the fuel, and the number of status requests
    grows beyond every bound.  In particular, a creation response without
    [job_id] hands the poller the id [None]: it polls [jobs/None], and while
    the service has no document there, for every [n] it sends more than [n]
    status requests without returning. *)
Theorem poll_loop_unbounded :
  (∀ c p w fuel out w',
     pc p = Polling →
     poll_for_pdf fuel c p w = (Some out, w') →
     ∃ evs, trace w' = trace w ++ evs ∧
       match out with
       | Ok v => v ≠ JNull ∧ seen_url c (job_id p) v evs
       | Raise e => seen_failure c (job_id p) e evs
       end) ∧
  (∀ c p w,
     pc p = Polling →
     (∀ s, pending (serve s (status_request c (job_id p))).1 = true) →
     (∀ fuel, (poll_for_pdf fuel c p w).1 = None) ∧
     ∀ n, (count_polls (trace w) + n
           < count_polls (trace (poll_for_pdf (2 * n + 2) c p w).2))%nat) ∧
  (∀ token resource input_type s r s1 kv,
     serve s (post_job_request (new_client token) resource input_type) = (Resp r, s1) →
     content r = Some (JObj kv) →
     dict_lookup kv "job_id" = None →
     (∀ s', pending (serve s' (status_request (new_client token) JNull)).1 = true) →
     url (status_request (new_client token) JNull) = api_url "jobs/None" ∧
     (∀ fuel, (handle_post_job token resource input_type fuel s).1 = None) ∧
     ∀ n, (n < count_polls (trace (handle_post_job token resource input_type (2 * n + 2) s).2))%nat).
Proof.
  assert (Hloop : ∀ c p w,
     pc p = Polling →
     (∀ s, pending (serve s (status_request c (job_id p))).1 = true) →
     (∀ fuel, (poll_for_pdf fuel c p w).1 = None) ∧
     ∀ n, (count_polls (trace w) + n
           < count_polls (trace (poll_for_pdf (2 * n + 2) c p w).2))%nat).
  { intros c p w Hpc Hpend. split.
    - intros fuel. rewrite poll_for_pdf_resume. simpl.
      destruct (resume_pending c (job_id p) Hpend fuel p w eq_refl (or_introl Hpc))
        as (Hidle & _). by apply outcome_idle.
    - intros n. rewrite poll_for_pdf_resume. cbn [fst snd].
      destruct (resume_pending c (job_id p) Hpend (2 * n + 2) p w eq_refl (or_introl Hpc))
        as (Hidle & _ & Hc). rewrite Hpc in Hc.
      destruct Hidle as [H1|H1]; rewrite H1 in Hc; lia. }
  split; [|split; [exact Hloop|]].
  - intros c p w fuel out w' Hpc. rewrite poll_for_pdf_resume. intros [= Hout <-].
    destruct (resume_justified c fuel p w (trace w) [])
      as (more & Htr & Hj & Hid).
    { by rewrite app_nil_r. }
    { unfold justified. by rewrite Hpc. }
    exists more. split; [done|]. simpl in Hj.
    unfold outcome in Hout. unfold justified in Hj. rewrite Hid in Hj.
    destruct (pc (resume fuel c p w).1); inversion Hout; by subst.
  - intros token resource input_type s r s1 kv Hs Hkv Hnone Hpend.
    split; [done|].
    assert (Hrun : ∀ fuel, handle_post_job token resource input_type fuel s =
              poll_for_pdf fuel (new_client token) (new_poller JNull 0)
                {| srv := s1;
                   progress := [{| description := "Working"; completed := 0; started := false |}];
                   trace := [EvHttp (post_job_request (new_client token) resource input_type)
                               (Resp r)] |}).
    { intros fuel. unfold handle_post_job, post_job, exchange. simpl. rewrite Hs. simpl.
      unfold response_job_id, response_json. rewrite Hkv. simpl. by rewrite Hnone. }
    destruct (Hloop (new_client token) (new_poller JNull 0)
                {| srv := s1;
                   progress := [{| description := "Working"; completed := 0; started := false |}];
                   trace := [EvHttp (post_job_request (new_client token) resource input_type)
                               (Resp r)] |} eq_refl Hpend) as [Hnever Hmany].
    split.
    + intros fuel. rewrite Hrun. apply Hnever.
    + intros n. rewrite Hrun. specialize (Hmany n). cbn [trace] in Hmany.
      change (count_polls [EvHttp (post_job_request (new_client token) resource input_type)
                             (Resp r)]) with 0%nat in Hmany. lia.
Qed.

(** ** The creation loop *)

Lemma posts_app (tr1 tr2 : list event) : posts (tr1 ++ tr2) = posts tr1 ++ posts tr2.
Proof. unfold posts. apply omap_app. Qed.

Lemma posts_no_post (evs : list event) :
  Forall (λ e, is_post e = false) evs → posts evs = [].
Proof.
  induction 1 as [|e l He _ IH]; [done|].
  unfold posts in *. destruct e as [q a|ms]; [|done].
  cbn in *. by destruct (meth q).
Qed.

(** One turn of the [for] loop. *)
Lemma create_jobs_cons (c : AsyncClient) (template : string) (entry : json)
    (rest : list json) (jobs : list poller) (w : world) a s' :
  serve (srv w) (template_request c template entry) = (a, s') →
  let t := length (progress w) in
  let w1 := {| srv := s';
               progress := progress w ++
                 [{| description := "Working"; completed := 0; started := false |}];
               trace := trace w ++ [EvHttp (template_request c template entry) a] |} in
  create_jobs c template (entry :: rest) jobs w =
    match r ← await_reply a; response_job_id r with
    | Raise e => (Raise e, w1)
    | Ok jid => create_jobs c template rest (jobs ++ [new_poller jid t]) w1
    end.
Proof.
  intros Hs. simpl. unfold post_template_job, post_job, exchange. simpl.
  unfold template_request in Hs. by rewrite Hs.
Qed.

(** A creation loop that completes has appended one poller per entry, in
    the order of the entries: the i-th new poller holds the job id of the
    answer to the i-th creation request, which carries the i-th entry. *)
Lemma create_jobs_ok (c : AsyncClient) (template : string) (data : list json) :
  ∀ (jobs : list poller) (w : world) jobs' w',
    create_jobs c template data jobs w = (Ok jobs', w') →
    ∃ new created,
      jobs' = jobs ++ new ∧
      posts (trace w') = posts (trace w) ++ created ∧
      length new = length data ∧
      ∀ i entry, data !! i = Some entry →
        ∃ r jid,
          created !! i = Some (template_request c template entry, Resp r) ∧
          response_job_id r = Ok jid ∧
          new !! i = Some (new_poller jid (length (progress w) + i)).
Proof.
  induction data as [|entry rest IH]; intros jobs w jobs' w' Hrun.
  - simpl in Hrun. injection Hrun as <- <-. exists [], [].
    rewrite !app_nil_r. by repeat split.
  - destruct (serve (srv w) (template_request c template entry)) as [a s'] eqn:Hs.
    rewrite (create_jobs_cons c template entry rest jobs w a s' Hs) in Hrun.
    destruct a as [r|cls]; simpl in Hrun; [|done].
    destruct (response_job_id r) as [jid|e] eqn:Hjid; simpl in Hrun; [|done].
    apply IH in Hrun as (new & created & -> & Hposts & Hlen & Hall).
    exists (new_poller jid (length (progress w)) :: new),
           ((template_request c template entry, Resp r) :: created).
    split; [by rewrite <- app_assoc|]. split.
    { rewrite Hposts. simpl. rewrite posts_app. by rewrite <- app_assoc. }
    split; [by simpl; rewrite Hlen|].
    intros [|i] entry' Hi; simpl in Hi.
    + injection Hi as <-. exists r, jid. rewrite Nat.add_0_r. by repeat split.
    + destruct (Hall i entry' Hi) as (r' & jid' & H1 & H2 & H3).
      exists r', jid'. split; [done|]. split; [done|]. simpl in *.
      rewrite H3. do 2 f_equal. rewrite length_app. simpl. lia.
Qed.

Lemma serve_seq_cons (s : S) (q : request) (qs : list request) :
  (serve_seq s (q :: qs)).1 =
  EvHttp q (serve s q).1 :: (serve_seq (serve s q).2 qs).1.
Proof.
  simpl. destruct (serve s q) as [a s1]. simpl. by destruct (serve_seq s1 qs).
Qed.

(** The requests of the creation loop are the creations of a prefix of the
    entries, each sent in the state the one before left; the prefix is the
    whole list when the loop completes. *)
Lemma create_jobs_trace (c : AsyncClient) (template : string) (data : list json) :
  ∀ (jobs : list poller) (w : world) r w',
    create_jobs c template data jobs w = (r, w') →
    ∃ k, (k ≤ length data)%nat ∧
      trace w' = trace w ++
        (serve_seq (srv w) (template_request c template <$> take k data)).1 ∧
      (∀ jobs', r = Ok jobs' → k = length data).
Proof.
  induction data as [|entry rest IH]; intros jobs w r w' Hrun.
  - simpl in Hrun. injection Hrun as <- <-. exists 0%nat. simpl.
    rewrite app_nil_r. by repeat split.
  - destruct (serve (srv w) (template_request c template entry)) as [a s'] eqn:Hs.
    rewrite (create_jobs_cons c template entry rest jobs w a s' Hs) in Hrun.
    assert (Hone : ∀ e,
      ∃ k, (k ≤ length (entry :: rest))%nat ∧
        trace w ++ [EvHttp (template_request c template entry) a] = trace w ++
          (serve_seq (srv w) (template_request c template <$> take k (entry :: rest))).1 ∧
        (∀ jobs', @Raise (list poller) e = Ok jobs' → k = length (entry :: rest))).
    { intros e. exists 1%nat. simpl. rewrite Hs. simpl.
      split; [lia|]. split; [|done]. by destruct rest. }
    destruct a as [resp|cls]; simpl in Hrun.
    2: { injection Hrun as <- <-. apply Hone. }
    destruct (response_job_id resp) as [jid|e] eqn:Hjid; simpl in Hrun.
    2: { injection Hrun as <- <-. apply Hone. }
    apply IH in Hrun as (k & Hk & Htr & Hall). simpl in Htr.
    exists (Datatypes.S k). split; [simpl; lia|]. split.
    + rewrite Htr, <- app_assoc. f_equal.
      change (template_request c template <$> take (Datatypes.S k) (entry :: rest))
        with (template_request c template entry :: (template_request c template <$> take k rest)).
      by rewrite serve_seq_cons, Hs.
    + intros jobs' Hr. simpl. f_equal. by eapply Hall.
Qed.

(** ** The gathered wait *)

Lemma gather_done (c : AsyncClient) (sched : list nat) (jobs : list poller) (w : world) pdfs :
  mapM returned jobs = Some pdfs → gather c sched jobs w = (Some (Ok pdfs), w).
Proof. intros H. destruct sched; simpl; by rewrite H. Qed.

Lemma gather_nil (c : AsyncClient) (jobs : list poller) (w : world) :
  mapM returned jobs = None → gather c [] jobs w = (None, w).
Proof. intros H. simpl. by rewrite H. Qed.

Lemma gather_cons (c : AsyncClient) (i : nat) (sched : list nat) (jobs : list poller)
    (w : world) :
  mapM returned jobs = None →
  gather c (i :: sched) jobs w =
    match jobs !! i with
    | None => gather c sched jobs w
    | Some p =>
        match pc (poll_step c p w).1 with
        | Raised e => (Some (Raise e), (poll_step c p w).2)
        | _ => gather c sched (<[i := (poll_step c p w).1]> jobs) (poll_step c p w).2
        end
    end.
Proof.
  intros H. simpl. rewrite H. destruct (jobs !! i) as [p|]; [|done].
  by destruct (poll_step c p w).
Qed.

(** The wait keeps the pollers in their places: whatever the schedule, the
    coroutine at position [i] is still the poller of the same job, its state
    is accounted for by the status requests of the wait, and a returned list
    holds, position by position, what the pollers returned. *)
Lemma gather_inv (c : AsyncClient) (sched : list nat) :
  ∀ (jobs : list poller) (w : world) out w' (tr0 evs : list event),
    gather c sched jobs w = (out, w') →
    trace w = tr0 ++ evs →
    Forall (λ p, justified c p evs) jobs →
    ∃ more jobs',
      trace w' = tr0 ++ (evs ++ more) ∧
      Forall (λ e, is_post e = false) more ∧
      job_id <$> jobs' = job_id <$> jobs ∧
      Forall (λ p, justified c p (evs ++ more)) jobs' ∧
      ∀ pdfs, out = Some (Ok pdfs) → mapM returned jobs' = Some pdfs.
Proof.
  induction sched as [|i sched IH]; intros jobs w out w' tr0 evs Hrun Htr Hj.
  all: destruct (mapM returned jobs) as [pdfs|] eqn:Hret.
  1, 3: rewrite (gather_done c _ jobs w pdfs Hret) in Hrun; injection Hrun as <- <-;
        exists [], jobs; rewrite app_nil_r; repeat split; try done; by intros ? [= <-].
  - rewrite gather_nil in Hrun by done. injection Hrun as <- <-.
    exists [], jobs. rewrite app_nil_r. by repeat split.
  - rewrite gather_cons in Hrun by done.
    destruct (jobs !! i) as [p|] eqn:Hp; [|by eapply IH].
    pose proof (Forall_lookup_1 (λ p0, justified c p0 evs) jobs i p Hj Hp) as Hjp.
    simpl in Hjp.
    destruct (poll_step_justified c p w tr0 evs Htr Hjp) as (m1 & Htr1 & Hnp1 & Hj1 & Hid1).
    set (jobs1 := <[i := (poll_step c p w).1]> jobs).
    assert (Hids : job_id <$> jobs1 = job_id <$> jobs).
    { unfold jobs1. rewrite list_fmap_insert, Hid1. apply list_insert_id.
      by rewrite list_lookup_fmap, Hp. }
    assert (Hj' : Forall (λ p0, justified c p0 (evs ++ m1)) jobs1).
    { unfold jobs1. apply Forall_insert; [|done].
      eapply Forall_impl; [exact Hj|]. intros p0. apply justified_mono. }
    destruct (pc (poll_step c p w).1) eqn:Hpc1.
    4: { injection Hrun as <- <-. exists m1, jobs1.
         do 4 (split; [done|]). by intros ? [=]. }
    all: destruct (IH _ _ _ _ tr0 (evs ++ m1) Hrun Htr1 Hj')
           as (m2 & jobs' & Htr2 & Hnp2 & Hids2 & Hj2 & Hout);
         exists (m1 ++ m2), jobs'; rewrite (app_assoc evs m1 m2);
         (split; [done|]); (split; [by apply Forall_app|]);
         (split; [etrans; [exact Hids2|exact Hids]|]); by split.
Qed.

Lemma mapM_returned_lookup (jobs : list poller) (pdfs : list json) :
  mapM returned jobs = Some pdfs →
  length pdfs = length jobs ∧
  ∀ i p, jobs !! i = Some p → ∃ v, pdfs !! i = Some v ∧ pc p = Returned v.
Proof.
  intros H. apply mapM_Some in H. split; [symmetry; by eapply Forall2_length|].
  intros i p Hp. destruct (Forall2_lookup_l _ _ _ _ _ H Hp) as (v & Hv & Hr).
  exists v. split; [done|]. unfold returned in Hr. by destruct (pc p); inversion Hr.
Qed.

(** ** The batch coordinator *)

Lemma seen_url_prefix (c : AsyncClient) (jid v : json) (pre evs : list event) :
  seen_url c jid v evs → seen_url c jid v (pre ++ evs).
Proof. intros (doc & Hin & H). exists doc. split; [|done]. apply elem_of_app. by right. Qed.

(** The pollers a completed creation loop hands to the wait are all at the
    top of their loop. *)
Lemma create_jobs_fresh (c : AsyncClient) (template : string) (data : list json)
    (w : world) jobs w' :
  create_jobs c template data [] w = (Ok jobs, w') →
  length jobs = length data ∧ Forall (λ p, justified c p []) jobs.
Proof.
  intros Hrun.
  destruct (create_jobs_ok c template data [] w jobs w' Hrun)
    as (new & created & -> & _ & Hlen & Hall).
  simpl. split; [done|]. apply Forall_lookup. intros i p Hp.
  destruct (lookup_lt_is_Some_2 data i) as [entry Hentry].
  { rewrite <- Hlen. by eapply lookup_lt_Some. }
  destruct (Hall i entry Hentry) as (r & jid & _ & _ & Hnew).
  rewrite Hnew in Hp. by injection Hp as <-.
Qed.

(** What a batch that returns has done, entry by entry. *)
Lemma batch_ok (token template : string) (data : list json) (sched : list nat) (s : S)
    (pdfs : list json) :
  (handle_post_template_jobs token template data sched s).1 = Some (Ok pdfs) →
  length pdfs = length data ∧
  ∀ i entry, data !! i = Some entry →
    ∃ r jid v,
      posts (trace (handle_post_template_jobs token template data sched s).2) !! i
        = Some (template_request (new_client token) template entry, Resp r) ∧
      response_job_id r = Ok jid ∧
      pdfs !! i = Some v ∧
      v ≠ JNull ∧
      seen_url (new_client token) jid v
        (trace (handle_post_template_jobs token template data sched s).2).
Proof.
  unfold handle_post_template_jobs. set (c := new_client token).
  destruct (create_jobs c template data [] (init_world s)) as [[jobs|e] w1] eqn:Hc; [|done].
  destruct (gather c sched jobs w1) as [out w'] eqn:Hg. simpl. intros ->.
  destruct (create_jobs_fresh c template data _ _ _ Hc) as [Hlen Hfresh].
  destruct (create_jobs_ok c template data [] _ _ _ Hc)
    as (new & created & Hjobs & Hposts & _ & Hall). simpl in Hjobs, Hposts. subst jobs.
  destruct (gather_inv c sched new w1 _ _ (trace w1) [] Hg) as
    (more & jobs' & Htr & Hnp & Hids & Hj & Hout); [by rewrite app_nil_r|done|].
  simpl in Htr, Hj.
  destruct (mapM_returned_lookup jobs' pdfs (Hout pdfs eq_refl)) as [Hlen' Hret].
  assert (Hlenj : length jobs' = length new).
  { by rewrite <- (length_fmap job_id jobs'), Hids, length_fmap. }
  split; [congruence|].
  intros i entry Hentry.
  destruct (Hall i entry Hentry) as (r & jid & Hcr & Hjid & Hnew).
  destruct (lookup_lt_is_Some_2 jobs' i) as [p' Hp'].
  { rewrite Hlenj. by eapply lookup_lt_Some. }
  assert (Hid : job_id p' = jid).
  { pose proof (f_equal (λ l, l !! i) Hids) as Hi. simpl in Hi.
    rewrite !list_lookup_fmap, Hp', Hnew in Hi. by injection Hi. }
  destruct (Hret i p' Hp') as (v & Hv & Hpc).
  pose proof (Forall_lookup_1 _ _ _ _ Hj Hp') as Hjp. simpl in Hjp.
  unfold justified in Hjp. rewrite Hpc, Hid in Hjp. destruct Hjp as [Hnull Hseen].
  exists r, jid, v. rewrite Htr, posts_app, Hposts, (posts_no_post more Hnp), app_nil_r.
  split; [done|]. split; [done|]. split; [done|]. split; [done|].
  by apply seen_url_prefix.
Qed.

(** C1.  A batch of N entries that returns gives a list of length N, and for
    every [i < N] its element [i] is the document URL that a status request
    for the job created from [data[i]] was answered with: the i-th creation
    of the run carries [data[i]], its answer names the job, and a 200
    response for that job holds the value at [document.url].  This holds for
    every schedule of the pollers, hence for every order in which they
    finish. *)
Theorem batch_results_in_input_order (token template : string) (data : list json)
    (sched : list nat) (s : S) (pdfs : list json) :
  (handle_post_template_jobs token template data sched s).1 = Some (Ok pdfs) →
  length pdfs = length data ∧
  ∀ i entry, data !! i = Some entry →
    ∃ r jid v,
      posts (trace (handle_post_template_jobs token template data sched s).2) !! i
        = Some (template_request (new_client token) template entry, Resp r) ∧
      response_job_id r = Ok jid ∧
      pdfs !! i = Some v ∧
      seen_url (new_client token) jid v
        (trace (handle_post_template_jobs token template data sched s).2).
Proof.
  intros Hrun. destruct (batch_ok token template data sched s pdfs Hrun) as [Hlen Hall].
  split; [done|]. intros i entry Hentry.
  destruct (Hall i entry Hentry) as (r & jid & v & H1 & H2 & H3 & _ & H4).
  by exists r, jid, v.
Qed.

(** A creation loop that raises has sent the creations up to and including
    the one whose answer made it raise, which is the last event. *)
Lemma create_jobs_raise (c : AsyncClient) (template : string) (data : list json) :
  ∀ (jobs : list poller) (w : world) e w',
    create_jobs c template data jobs w = (Raise e, w') →
    ∃ j entry a,
      data !! j = Some entry ∧
      trace w' = trace w ++
        (serve_seq (srv w) (template_request c template <$> take (Datatypes.S j) data)).1 ∧
      last (trace w') = Some (EvHttp (template_request c template entry) a) ∧
      (r ← await_reply a; response_job_id r) = Raise e.
Proof.
  induction data as [|entry rest IH]; intros jobs w e w' Hrun.
  - simpl in Hrun. by injection Hrun.
  - destruct (serve (srv w) (template_request c template entry)) as [a s'] eqn:Hs.
    rewrite (create_jobs_cons c template entry rest jobs w a s' Hs) in Hrun.
    assert (Hone : trace w ++ [EvHttp (template_request c template entry) a] =
              trace w ++
              (serve_seq (srv w)
                 (template_request c template <$> take 1 (entry :: rest))).1).
    { simpl. rewrite Hs. simpl. by destruct rest. }
    destruct (r ← await_reply a; response_job_id r) as [jid|e0] eqn:Hjid.
    + apply IH in Hrun as (j & entry' & a' & Hj & Htr & Hlast & Hraise). simpl in Htr.
      exists (Datatypes.S j), entry', a'. split; [done|]. split; [|done].
      rewrite Htr, <- app_assoc. f_equal.
      change (template_request c template <$> take (Datatypes.S (Datatypes.S j)) (entry :: rest))
        with (template_request c template entry ::
              (template_request c template <$> take (Datatypes.S j) rest)).
      by rewrite serve_seq_cons, Hs.
    + injection Hrun as <- <-. exists 0%nat, entry, a. split; [done|]. simpl trace.
      split; [exact Hone|]. split; [apply last_snoc|done].
Qed.

(** C9.  The trace of a batch is the creations of a prefix of the entries,
    in input order and each sent in the service state the answer to the one
    before left, followed by events that hold no creation; and these later
    events, the status requests among them, exist only when every entry has
    had its creation.  The prefix is the whole list of entries: all N
    creations are sent, unless the answer to one of them raises, in which
    case that creation is the last event and its exception the result of the
    batch. *)
Theorem batch_creates_all_before_polling (token template : string) (data : list json)
    (sched : list nat) (s : S) :
  ∃ k polls,
    (k ≤ length data)%nat ∧
    trace (handle_post_template_jobs token template data sched s).2 =
      (serve_seq s (template_request (new_client token) template <$> take k data)).1
      ++ polls ∧
    Forall (λ e, is_post e = false) polls ∧
    (polls ≠ [] → k = length data) ∧
    (k = length data ∨
     ∃ j entry a e,
       k = Datatypes.S j ∧
       data !! j = Some entry ∧
       polls = [] ∧
       last (trace (handle_post_template_jobs token template data sched s).2) =
         Some (EvHttp (template_request (new_client token) template entry) a) ∧
       (r ← await_reply a; response_job_id r) = Raise e ∧
       (handle_post_template_jobs token template data sched s).1 = Some (Raise e)).
Proof.
  unfold handle_post_template_jobs. set (c := new_client token).
  destruct (create_jobs c template data [] (init_world s)) as [r w1] eqn:Hc.
  destruct r as [jobs|e].
  - destruct (create_jobs_trace c template data [] _ _ _ Hc) as (k & Hk & Htr & Hall).
    simpl in Htr.
    destruct (gather c sched jobs w1) as [out w'] eqn:Hg.
    destruct (create_jobs_fresh c template data _ _ _ Hc) as [_ Hfresh].
    destruct (gather_inv c sched jobs w1 _ _ (trace w1) [] Hg) as
      (more & jobs' & Htr' & Hnp & _); [by rewrite app_nil_r|done|].
    exists k, more. simpl in *. rewrite Htr', Htr.
    split; [done|]. split; [done|]. split; [done|]. split; [intros _; by eapply Hall|].
    left. by eapply Hall.
  - destruct (create_jobs_raise c template data [] _ _ _ Hc)
      as (j & entry & a & Hj & Htr & Hlast & Hraise). simpl in Htr.
    exists (Datatypes.S j), []. simpl. rewrite app_nil_r.
    split; [by eapply lookup_lt_Some|]. split; [done|]. split; [done|]. split; [done|].
    right. by exists j, entry, a, e.
Qed.

(** C10.  [add_job_template] is the batch on the one-element list: when the
    batch on [[d]] returns, its list has exactly one element and the command
    prints that element; when the batch raises, so does the command; and as
    long as the batch has not finished, neither has the command. *)
Theorem add_job_template_is_singleton_batch (template : string) (d : json) (token : string)
    (sched : list nat) (s : S) :
  match (handle_post_template_jobs token template [d] sched s).1 with
  | None => add_job_template template d token sched s = None
  | Some (Raise e) => add_job_template template d token sched s = Some (Raise e)
  | Some (Ok pdfs) =>
      ∃ pdf, pdfs = [pdf] ∧
        add_job_template template d token sched s =
          Some (Ok ["Creating PDF from template with given data."; py_str pdf])
  end.
Proof.
  unfold add_job_template.
  destruct (handle_post_template_jobs token template [d] sched s).1 as [[pdfs|e]|] eqn:Hrun;
    [|done|done].
  destruct (batch_ok token template [d] sched s pdfs Hrun) as [Hlen _].
  destruct pdfs as [|pdf [|? ?]]; try done. by exists pdf.
Qed.

(** ** Transport failures *)







(** ** More about the poller *)

(** Whatever value other than [None] a 200 response holds at [document.url],
    a string or not, empty or not, the poller returns it unchanged after that
    one request, with its task complete. *)
Theorem poll_returns_any_value (c : AsyncClient) (p : poller) (w : world)
    (r : response) (s' : S) (v : json) :
  pc p = Polling →
  (task p < length (progress w))%nat →
  serve (srv w) (status_request c (job_id p)) = (Resp r, s') →
  status_code r = 200 →
  document_url r = Ok v →
  v ≠ JNull →
  ∃ w',
    (∀ fuel, poll_for_pdf (Datatypes.S fuel) c p w = (Some (Ok v), w')) ∧
    trace w' = trace w ++ [EvHttp (status_request c (job_id p)) (Resp r)] ∧
    completed <$> progress w' !! task p = Some 100.
Proof.
  intros Hpc Ht Hs H200 Hurl Hv.
  destruct (poll_step_cases c p w _ s' Hpc Hs)
    as [(cls & [=] & _)|[(r0 & [= <-] & Hne & _)|[(r0 & [= <-] & _ & Hnone & _)|
       [(r0 & e & [= <-] & _ & He & _)|[(r0 & v0 & pr & [= <-] & _ & Hv0 & Hup & Hst)|
        (r0 & v0 & [= <-] & _ & _ & Hlen & _)]]]]]; try congruence; try lia.
  - unfold document_url, response_json in Hurl. by rewrite Hnone in Hurl.
  - rewrite Hurl in Hv0. injection Hv0 as <-.
    destruct (loop_test_outcome v) as [[? _]|[_ Hl]]; [done|]. rewrite Hl in Hst.
    eexists. split; [|split].
    + intros fuel. rewrite poll_for_pdf_unfold by (unfold outcome; by rewrite Hpc).
      rewrite Hst. simpl fst; simpl snd. by apply poll_for_pdf_finished.
    + done.
    + simpl. destruct (progress_update_ok (progress w) (task p) 100 Ht) as (pr' & Hpr' & _ & Hc).
      rewrite Hup in Hpr'. by injection Hpr' as <-.
Qed.

(** A 200 response whose [document.url] is null completes the progress task
    although no document is there: the poller is back at the top of its loop
    with no sleep, and its next resumption polls again. *)
Theorem poll_null_url_completes_task (c : AsyncClient) (p : poller) (w : world)
    (r : response) (s' : S) :
  pc p = Polling →
  (task p < length (progress w))%nat →
  serve (srv w) (status_request c (job_id p)) = (Resp r, s') →
  status_code r = 200 →
  document_url r = Ok JNull →
  ∃ pr,
    poll_step c p w =
      (p, {| srv := s'; progress := pr;
             trace := trace w ++ [EvHttp (status_request c (job_id p)) (Resp r)] |}) ∧
    completed <$> pr !! task p = Some 100 ∧
    outcome p = None.
Proof.
  intros Hpc Ht Hs H200 Hurl.
  destruct (poll_step_cases c p w _ s' Hpc Hs)
    as [(cls & [=] & _)|[(r0 & [= <-] & Hne & _)|[(r0 & [= <-] & _ & Hnone & _)|
       [(r0 & e & [= <-] & _ & He & _)|[(r0 & v0 & pr & [= <-] & _ & Hv0 & Hup & Hst)|
        (r0 & v0 & [= <-] & _ & _ & Hlen & _)]]]]]; try congruence; try lia.
  - unfold document_url, response_json in Hurl. by rewrite Hnone in Hurl.
  - rewrite Hurl in Hv0. injection Hv0 as <-. simpl in Hst.
    exists pr. split; [|split].
    + rewrite Hst. f_equal. rewrite <- Hpc. apply set_pc_same.
    + destruct (progress_update_ok (progress w) (task p) 100 Ht) as (pr' & Hpr' & _ & Hc).
      rewrite Hup in Hpr'. by injection Hpr' as <-.
    + unfold outcome. by rewrite Hpc.
Qed.

(** ** What a run can put into its trace *)

Lemma poll_step_from_job (c : AsyncClient) (p : poller) (w : world) :
  ∃ more,
    trace (poll_step c p w).2 = trace w ++ more ∧
    Forall (from_job c (job_id p)) more ∧
    job_id (poll_step c p w).1 = job_id p.
Proof.
  destruct (pc p) as [|v|v|e] eqn:Hpc.
  - destruct (serve (srv w) (status_request c (job_id p))) as [a s'] eqn:Hs.
    assert (Hev : from_job c (job_id p) (EvHttp (status_request c (job_id p)) a)).
    { right. exists a, (srv w). by rewrite Hs. }
    assert (Hsl : from_job c (job_id p) (EvSleep poll_interval_ms)) by by left.
    destruct (poll_step_cases c p w a s' Hpc Hs)
      as [(cls & -> & ->)|[(r & -> & Hne & ->)|[(r & -> & H200 & Hnone & ->)|
         [(r & e & -> & H200 & He & Hc & ->)|[(r & v & pr & -> & H200 & Hv & Hup & ->)|
          (r & v & -> & H200 & Hv & Hlen & ->)]]]]]; simpl.
    1-3, 5: eexists [_]; (split; [done|]); split; [|done];
            constructor; [assumption|constructor].
    all: eexists [_; _]; rewrite <- app_assoc; (split; [done|]); split; [|done];
         constructor; [assumption|constructor; [assumption|constructor]].
  - exists []. unfold poll_step. rewrite Hpc. simpl. by rewrite app_nil_r.
  - exists []. rewrite (poll_step_finished c p w (Ok v)) by (unfold outcome; by rewrite Hpc).
    simpl. by rewrite app_nil_r.
  - exists []. rewrite (poll_step_finished c p w (Raise e)) by (unfold outcome; by rewrite Hpc).
    simpl. by rewrite app_nil_r.
Qed.

Lemma resume_from_job (c : AsyncClient) (n : nat) :
  ∀ (p : poller) (w : world),
    ∃ more,
      trace (resume n c p w).2 = trace w ++ more ∧
      Forall (from_job c (job_id p)) more.
Proof.
  induction n as [|n IH]; intros p w.
  - exists []. simpl. by rewrite app_nil_r.
  - rewrite resume_S.
    destruct (poll_step_from_job c p w) as (m1 & Htr1 & Hf1 & Hid).
    destruct (IH (poll_step c p w).1 (poll_step c p w).2) as (m2 & Htr2 & Hf2).
    exists (m1 ++ m2). rewrite Htr2, Htr1, <- app_assoc. split; [done|].
    apply Forall_app. split; [done|]. by rewrite Hid in Hf2.
Qed.

Lemma gather_from_jobs (c : AsyncClient) (sched : list nat) :
  ∀ (jobs : list poller) (w : world) out w',
    gather c sched jobs w = (out, w') →
    ∃ more,
      trace w' = trace w ++ more ∧
      Forall (λ e, ∃ jid, jid ∈ job_id <$> jobs ∧ from_job c jid e) more.
Proof.
  induction sched as [|i sched IH]; intros jobs w out w' Hrun.
  all: destruct (mapM returned jobs) as [pdfs|] eqn:Hret.
  1, 3: rewrite (gather_done c _ jobs w pdfs Hret) in Hrun; injection Hrun as <- <-;
        exists []; by rewrite app_nil_r.
  - rewrite gather_nil in Hrun by done. injection Hrun as <- <-.
    exists []. by rewrite app_nil_r.
  - rewrite gather_cons in Hrun by done.
    destruct (jobs !! i) as [p|] eqn:Hp; [|by eapply IH].
    destruct (poll_step_from_job c p w) as (m1 & Htr1 & Hf1 & Hid).
    assert (Hin : job_id p ∈ job_id <$> jobs).
    { apply list_elem_of_fmap. exists p. split; [done|]. by eapply list_elem_of_lookup_2. }
    assert (Hf1' : Forall (λ e, ∃ jid, jid ∈ job_id <$> jobs ∧ from_job c jid e) m1).
    { eapply Forall_impl; [exact Hf1|]. intros e He. by exists (job_id p). }
    assert (Hids : job_id <$> <[i := (poll_step c p w).1]> jobs = job_id <$> jobs).
    { rewrite list_fmap_insert, Hid. apply list_insert_id. by rewrite list_lookup_fmap, Hp. }
    destruct (pc (poll_step c p w).1) eqn:Hpc1.
    4: { injection Hrun as <- <-. by exists m1. }
    all: destruct (IH _ _ _ _ Hrun) as (m2 & Htr2 & Hf2);
         exists (m1 ++ m2); rewrite Htr2, Htr1, <- app_assoc; (split; [done|]);
         apply Forall_app; (split; [done|]); by rewrite Hids in Hf2.
Qed.

Lemma create_jobs_events (c : AsyncClient) (template : string) (data : list json) :
  ∀ (jobs : list poller) (w : world) r w',
    create_jobs c template data jobs w = (r, w') →
    ∃ more,
      trace w' = trace w ++ more ∧
      Forall (λ e, ∃ entry s0, entry ∈ data ∧
                e = EvHttp (template_request c template entry)
                      (serve s0 (template_request c template entry)).1) more.
Proof.
  induction data as [|entry rest IH]; intros jobs w r w' Hrun.
  - simpl in Hrun. injection Hrun as <- <-. exists []. by rewrite app_nil_r.
  - destruct (serve (srv w) (template_request c template entry)) as [a s'] eqn:Hs.
    rewrite (create_jobs_cons c template entry rest jobs w a s' Hs) in Hrun.
    assert (Hev : ∃ entry0 s0, entry0 ∈ entry :: rest ∧
              EvHttp (template_request c template entry) a =
              EvHttp (template_request c template entry0)
                (serve s0 (template_request c template entry0)).1).
    { exists entry, (srv w). split; [by left|]. by rewrite Hs. }
    destruct a as [resp|cls]; simpl in Hrun.
    2: { injection Hrun as <- <-. eexists [_]. split; [done|].
         constructor; [assumption|constructor]. }
    destruct (response_job_id resp) as [jid|e] eqn:Hjid; simpl in Hrun.
    2: { injection Hrun as <- <-. eexists [_]. split; [done|].
         constructor; [assumption|constructor]. }
    destruct (IH _ _ _ _ Hrun) as (m2 & Htr2 & Hf2). simpl in Htr2.
    eexists (_ :: m2). rewrite Htr2, <- app_assoc. split; [done|].
    constructor; [done|]. eapply Forall_impl; [exact Hf2|].
    intros e (entry0 & s0 & Hin & He). exists entry0, s0. split; [by right|done].
Qed.

Lemma posts_elem (tr : list event) (q : request) (a : reply) :
  (q, a) ∈ posts tr → EvHttp q a ∈ tr.
Proof.
  unfold posts. intros H. apply list_elem_of_omap in H as (e & Hin & He).
  destruct e as [q0 a0|ms]; [|done]. destruct (is_post (EvHttp q0 a0)); [|done].
  by injection He as <- <-.
Qed.

(** Every event of a batch is a creation for an entry of the data, answered
    by the service, or comes from the poller of a job id that a creation in
    the same trace was answered with. *)
Lemma batch_events (token template : string) (data : list json) (sched : list nat)
    (s : S) (e : event) :
  e ∈ trace (handle_post_template_jobs token template data sched s).2 →
  (∃ entry s0, entry ∈ data ∧
     e = EvHttp (template_request (new_client token) template entry)
           (serve s0 (template_request (new_client token) template entry)).1) ∨
  (∃ jid entry r,
     from_job (new_client token) jid e ∧
     entry ∈ data ∧
     EvHttp (template_request (new_client token) template entry) (Resp r)
       ∈ trace (handle_post_template_jobs token template data sched s).2 ∧
     response_job_id r = Ok jid).
Proof.
  unfold handle_post_template_jobs. set (c := new_client token).
  destruct (create_jobs c template data [] (init_world s)) as [r w1] eqn:Hc.
  destruct (create_jobs_events c template data _ _ _ _ Hc) as (m1 & Htr1 & Hf1).
  simpl in Htr1. rewrite Forall_forall in Hf1.
  destruct r as [jobs|ex]; simpl.
  2: { intros Hin. left. rewrite Htr1 in Hin. by apply Hf1. }
  destruct (gather c sched jobs w1) as [out w'] eqn:Hg. simpl.
  destruct (gather_from_jobs c sched jobs w1 _ _ Hg) as (m2 & Htr2 & Hf2).
  rewrite Forall_forall in Hf2.
  rewrite Htr2, Htr1. intros Hin. apply elem_of_app in Hin as [Hin|Hin].
  { left. by apply Hf1. }
  right. destruct (Hf2 e Hin) as (jid & Hjid & Hfrom).
  destruct (create_jobs_ok c template data [] _ _ _ Hc)
    as (new & created & Hjobs & Hposts & Hlen & Hall). simpl in Hjobs, Hposts. subst jobs.
  apply list_elem_of_fmap in Hjid as (p & -> & Hp).
  apply list_elem_of_lookup in Hp as [i Hp].
  destruct (lookup_lt_is_Some_2 data i) as [entry Hentry].
  { rewrite <- Hlen. by eapply lookup_lt_Some. }
  destruct (Hall i entry Hentry) as (r & jid & Hcr & Hr & Hnew).
  rewrite Hnew in Hp. injection Hp as <-.
  exists jid, entry, r. split; [done|]. split; [by eapply list_elem_of_lookup_2|].
  split; [|done]. apply elem_of_app. left. rewrite <- Htr1.
  apply posts_elem. rewrite Hposts. by eapply list_elem_of_lookup_2.
Qed.


Lemma status_request_authenticated (token : string) (jid : json) :
  authorization (status_request (new_client token) jid) = "Bearer " +:+ token ∧
  ∃ suffix, url (status_request (new_client token) jid)
            = PAPERO_SERVER settings +:+ "/api/v1/jobs/" +:+ suffix.
Proof. split; [done|]. by exists (py_str jid). Qed.



(** ** The single job *)

Lemma resume_justified_events (c : AsyncClient) (n : nat) (p : poller) (w : world) :
  pc p = Polling →
  ∃ more,
    trace (resume n c p w).2 = trace w ++ more ∧
    justified c (resume n c p w).1 more ∧
    job_id (resume n c p w).1 = job_id p ∧
    Forall (from_job c (job_id p)) more.
Proof.
  intros Hpc.
  destruct (resume_justified c n p w (trace w) []) as (m1 & Htr1 & Hj & Hid).
  { by rewrite app_nil_r. }
  { unfold justified. by rewrite Hpc. }
  destruct (resume_from_job c n p w) as (m2 & Htr2 & Hf).
  simpl in Htr1. rewrite Htr1 in Htr2. apply app_inv_head in Htr2. subst m2.
  by exists m1.
Qed.

(** What a single-job run that returns has done. *)
Lemma single_job_ok (token resource input_type : string) (fuel : nat) (s : S) (v : json) :
  (handle_post_job token resource input_type fuel s).1 = Some (Ok v) →
  ∃ r jid polls,
    trace (handle_post_job token resource input_type fuel s).2 =
      EvHttp (post_job_request (new_client token) resource input_type) (Resp r) :: polls ∧
    response_job_id r = Ok jid ∧
    v ≠ JNull ∧
    seen_url (new_client token) jid v polls ∧
    Forall (from_job (new_client token) jid) polls.
Proof.
  unfold handle_post_job, post_job, exchange. simpl.
  destruct (serve s (post_job_request (new_client token) resource input_type))
    as [a s1] eqn:Hs. simpl.
  destruct a as [r|cls]; simpl; [|done].
  destruct (response_job_id r) as [jid|e] eqn:Hjid; simpl; [|done].
  rewrite poll_for_pdf_resume. simpl. intros Hout.
  match goal with |- context [resume fuel ?c ?p ?w] =>
    destruct (resume_justified_events c fuel p w eq_refl) as (more & Htr & Hj & Hid & Hf);
    destruct (pc (resume fuel c p w).1) as [| |v0|] eqn:Hpc;
    unfold outcome in Hout; rewrite Hpc in Hout; try done end.
  injection Hout as ->. unfold justified in Hj. rewrite Hpc, Hid in Hj.
  destruct Hj as [Hv Hseen]. simpl in Htr, Hseen, Hf.
  exists r, jid, more. by repeat split.
Qed.

(** A single-job run that returns [v] sent exactly one creation, first, for
    the given resource and input type; its answer named a job, every later
    event is a status request for that job or a sleep, and [v] is what a 200
    answer to one of these requests held at [document.url]. *)
Theorem single_job_result (token resource input_type : string) (fuel : nat) (s : S)
    (v : json) :
  (handle_post_job token resource input_type fuel s).1 = Some (Ok v) →
  ∃ r jid polls,
    trace (handle_post_job token resource input_type fuel s).2 =
      EvHttp
        (client_post (new_client token) (api_url "jobs/")
           (JObj [("resource", JStr resource); ("input_type", JStr input_type)]))
        (Resp r) :: polls ∧
    response_job_id r = Ok jid ∧
    v ≠ JNull ∧
    seen_url (new_client token) jid v polls ∧
    Forall (λ e, is_post e = false) polls.
Proof.
  intros Hrun.
  destruct (single_job_ok token resource input_type fuel s v Hrun)
    as (r & jid & polls & Htr & Hjid & Hv & Hseen & Hf).
  exists r, jid, polls. do 4 (split; [done|]).
  eapply Forall_impl; [exact Hf|]. by intros e [->|(a & s0 & -> & _)].
Qed.

Lemma mapM_returned_single (p : poller) :
  mapM returned [p] = match pc p with Returned v => Some [v] | _ => None end.
Proof. simpl. unfold returned. by destruct (pc p). Qed.

(** Gathering one coroutine is awaiting it, with as much fuel as the
    schedule names it. *)
Lemma gather_single (c : AsyncClient) (sched : list nat) :
  ∀ (p : poller) (w : world),
    (∀ e, pc p ≠ Raised e) →
    gather c sched [p] w =
      (match (poll_for_pdf (count_occ Nat.eq_dec sched 0%nat) c p w).1 with
       | Some (Ok v) => Some (Ok [v])
       | Some (Raise e) => Some (Raise e)
       | None => None
       end,
       (poll_for_pdf (count_occ Nat.eq_dec sched 0%nat) c p w).2).
Proof.
  induction sched as [|i sched IH]; intros p w Hp.
  - destruct (pc p) as [|u|v|e] eqn:Hpc; [| | |by destruct (Hp e)].
    + rewrite gather_nil by (by rewrite mapM_returned_single, Hpc).
      simpl. unfold outcome. by rewrite Hpc.
    + rewrite gather_nil by (by rewrite mapM_returned_single, Hpc).
      simpl. unfold outcome. by rewrite Hpc.
    + rewrite (gather_done c _ [p] w [v]) by (by rewrite mapM_returned_single, Hpc).
      by rewrite (poll_for_pdf_finished _ c p w (Ok v)) by (unfold outcome; by rewrite Hpc).
  - destruct (outcome p) as [r|] eqn:Hout.
    + unfold outcome in Hout. destruct (pc p) as [|u|v|e] eqn:Hpc; try done.
      * injection Hout as <-.
        rewrite (gather_done c _ [p] w [v]) by (by rewrite mapM_returned_single, Hpc).
        by rewrite (poll_for_pdf_finished _ c p w (Ok v)) by (unfold outcome; by rewrite Hpc).
      * by destruct (Hp e).
    + assert (Hnone : mapM returned [p] = None).
      { rewrite mapM_returned_single. unfold outcome in Hout. by destruct (pc p). }
      rewrite gather_cons by done.
      destruct i as [|j].
      * change (count_occ Nat.eq_dec (0%nat :: sched) 0%nat)
          with (Datatypes.S (count_occ Nat.eq_dec sched 0%nat)).
        rewrite poll_for_pdf_unfold by done.
        change ([p] !! 0%nat) with (Some p). cbv beta iota.
        remember (poll_step c p w) as st eqn:Hst.
        destruct (pc st.1) as [|u1|v1|e1] eqn:Hpc1.
        1-3: apply IH; intros e; by rewrite Hpc1.
        by rewrite (poll_for_pdf_finished _ c _ _ (Raise e1))
          by (unfold outcome; by rewrite Hpc1).
      * change (count_occ Nat.eq_dec (Datatypes.S j :: sched) 0%nat)
          with (count_occ Nat.eq_dec sched 0%nat).
        change ([p] !! Datatypes.S j) with (@None poller). cbv beta iota. by apply IH.
Qed.

(** A batch of one entry is the single job on the entry's template URL:
    the same result, as a one-element list, and the same service state,
    progress display and trace, the single job having as much fuel as the
    schedule names the one poller. *)
Theorem singleton_batch_is_single_job (token template : string) (d : json)
    (sched : list nat) (s : S) :
  handle_post_template_jobs token template [d] sched s =
    (match (handle_post_job token (template_url template d default_template_server)
              "url" (count_occ Nat.eq_dec sched 0%nat) s).1 with
     | Some (Ok v) => Some (Ok [v])
     | Some (Raise e) => Some (Raise e)
     | None => None
     end,
     (handle_post_job token (template_url template d default_template_server)
        "url" (count_occ Nat.eq_dec sched 0%nat) s).2).
Proof.
  unfold handle_post_template_jobs, handle_post_job. simpl.
  unfold post_template_job.
  destruct (post_job (new_client token) (template_url template d default_template_server)
              "url" _) as [a w1] eqn:Hpost.
  destruct a as [r|cls]; simpl; [|done].
  destruct (response_job_id r) as [jid|e]; simpl; [|done].
  by apply gather_single.
Qed.

(** ** The progress display *)

(** A resumption touches no task but the poller's own, and that one only to
    complete it; a poller with a registered task returns only with its task
    complete and never sleeps on a document. *)
Lemma poll_step_progress (c : AsyncClient) (p : poller) (w : world) :
  (task p < length (progress w))%nat →
  (∀ v, pc p = Sleeping v → v = JNull) →
  task (poll_step c p w).1 = task p ∧
  (∀ v, pc (poll_step c p w).1 = Sleeping v → v = JNull) ∧
  (∀ j, j ≠ task p → progress (poll_step c p w).2 !! j = progress w !! j) ∧
  (progress (poll_step c p w).2 !! task p = progress w !! task p ∨
   ∃ tk, progress w !! task p = Some tk ∧
         progress (poll_step c p w).2 !! task p =
           Some {| description := description tk; completed := 100;
                   started := started tk |}) ∧
  (∀ v, pc (poll_step c p w).1 = Returned v →
        pc p = Returned v ∨
        completed <$> progress (poll_step c p w).2 !! task p = Some 100).
Proof.
  intros Ht Hsl. destruct (pc p) as [|u|u|e] eqn:Hpc.
  - destruct (serve (srv w) (status_request c (job_id p))) as [a s'] eqn:Hs.
    destruct (poll_step_cases c p w a s' Hpc Hs)
      as [(cls & -> & ->)|[(r & -> & Hne & ->)|[(r & -> & H200 & Hnone & ->)|
         [(r & e & -> & H200 & He & Hc & ->)|[(r & v & pr & -> & H200 & Hv & Hup & ->)|
          (r & v & -> & H200 & Hv & Hlen & ->)]]]]]; simpl.
    1-4: split; [done|]; split; [by intros ? [=]|]; split; [done|]; split; [by left|done].
    + unfold progress_update in Hup.
      destruct (progress w !! task p) as [tk|] eqn:Htk; [|done]. injection Hup as <-.
      split; [done|]. split.
      { intros v0 Hv0. by destruct (loop_test_outcome v) as [[-> Hl]|[_ Hl]];
          rewrite Hl in Hv0. }
      split; [intros j Hj; by rewrite list_lookup_insert_ne|].
      split.
      * right. exists tk. split; [done|]. by rewrite list_lookup_insert_eq.
      * intros v0 _. right. by rewrite list_lookup_insert_eq.
    + lia.
  - assert (poll_step c p w = (set_pc p (loop_test u), w)) as ->.
    { unfold poll_step. by rewrite Hpc. }
    rewrite (Hsl u eq_refl). simpl.
    split; [done|]. split; [done|]. split; [done|]. split; [by left|done].
  - rewrite (poll_step_finished c p w (Ok u)) by (unfold outcome; by rewrite Hpc). simpl.
    split; [done|]. split; [by rewrite Hpc|]. split; [done|]. split; [by left|].
    intros v Hv. left. by rewrite Hpc in Hv.
  - rewrite (poll_step_finished c p w (Raise e)) by (unfold outcome; by rewrite Hpc). simpl.
    split; [done|]. split; [by rewrite Hpc|]. split; [done|]. split; [by left|].
    intros v Hv. by rewrite Hpc in Hv.
Qed.

Lemma lookup_same_length {A} (l1 l2 : list A) :
  (∀ j, is_Some (l1 !! j) ↔ is_Some (l2 !! j)) → length l1 = length l2.
Proof.
  intros H. destruct (Nat.lt_trichotomy (length l1) (length l2)) as [Hlt|[Heq|Hlt]]; [|done|].
  - apply lookup_lt_is_Some_2, H, lookup_lt_is_Some_1 in Hlt. lia.
  - apply lookup_lt_is_Some_2, H, lookup_lt_is_Some_1 in Hlt. lia.
Qed.

(** Resuming the poller at position [i] keeps the display in step with the
    pollers. *)
Lemma poll_step_tracked (c : AsyncClient) (i : nat) (p : poller) (jobs : list poller)
    (w : world) :
  jobs !! i = Some p →
  tracked (progress w) jobs →
  Forall tidy (progress w) →
  tracked (progress (poll_step c p w).2) (<[i := (poll_step c p w).1]> jobs) ∧
  Forall tidy (progress (poll_step c p w).2).
Proof.
  intros Hp [Hlen Hall] Htidy.
  destruct (Hall i p Hp) as (Hti & Hsl & Hret).
  assert (Hreg : (task p < length (progress w))%nat).
  { rewrite Hti, Hlen. by eapply lookup_lt_Some. }
  destruct (poll_step_progress c p w Hreg Hsl) as (Ht' & Hsl' & Hother & Hown & Hret').
  rewrite Hti in Hother, Hown, Hret'.
  assert (Hsome : ∀ j, is_Some (progress (poll_step c p w).2 !! j) ↔ is_Some (progress w !! j)).
  { intros j. destruct (decide (j = i)) as [->|Hj]; [|by rewrite Hother].
    destruct Hown as [->|(tk & -> & ->)]; [done|]. split; by eauto. }
  assert (Hlen' : length (progress (poll_step c p w).2) = length (progress w))
    by (by apply lookup_same_length).
  split; [split|].
  - by rewrite length_insert, Hlen'.
  - intros k pk Hk. destruct (decide (k = i)) as [->|Hki].
    + rewrite list_lookup_insert_eq in Hk by (by eapply lookup_lt_Some).
      injection Hk as <-. split; [congruence|]. split; [done|].
      intros v Hv. destruct (Hret' v Hv) as [Hold|Hnew]; [|done].
      destruct Hown as [->|(tk & Htk & ->)]; [by apply (Hret v)|done].
    + rewrite list_lookup_insert_ne in Hk by done.
      destruct (Hall k pk Hk) as (Htk & Hslk & Hretk).
      split; [done|]. split; [done|]. intros v Hv. rewrite Hother by done. by apply (Hretk v).
  - apply Forall_lookup. intros j t Hj.
    rewrite Forall_lookup in Htidy.
    destruct (decide (j = i)) as [->|Hji]; [|rewrite Hother in Hj by done; by eapply Htidy].
    destruct Hown as [Hsame|(tk & Htk & Hnew)].
    + rewrite Hsame in Hj. by eapply Htidy.
    + rewrite Hnew in Hj. injection Hj as <-.
      destruct (Htidy i tk Htk) as (Hd & Hst & _). by repeat split; [..|right].
Qed.

Lemma gather_tracked (c : AsyncClient) (sched : list nat) :
  ∀ (jobs : list poller) (w : world) out w',
    gather c sched jobs w = (out, w') →
    tracked (progress w) jobs →
    Forall tidy (progress w) →
    ∃ jobs',
      length jobs' = length jobs ∧
      tracked (progress w') jobs' ∧
      Forall tidy (progress w') ∧
      ∀ pdfs, out = Some (Ok pdfs) → mapM returned jobs' = Some pdfs.
Proof.
  induction sched as [|i sched IH]; intros jobs w out w' Hrun Htr Htidy.
  all: destruct (mapM returned jobs) as [pdfs|] eqn:Hret.
  1, 3: rewrite (gather_done c _ jobs w pdfs Hret) in Hrun; injection Hrun as <- <-;
        exists jobs; do 3 (split; [done|]); by intros ? [= <-].
  - rewrite gather_nil in Hrun by done. injection Hrun as <- <-.
    exists jobs. do 3 (split; [done|]). by intros ? [=].
  - rewrite gather_cons in Hrun by done.
    destruct (jobs !! i) as [p|] eqn:Hp; [|by eapply IH].
    destruct (poll_step_tracked c i p jobs w Hp Htr Htidy) as [Htr1 Htidy1].
    remember (poll_step c p w) as st eqn:Hst.
    destruct (pc st.1) eqn:Hpc1.
    4: { injection Hrun as <- <-. eexists. split; [apply length_insert|].
         split; [exact Htr1|]. split; [done|]. by intros ? [=]. }
    all: destruct (IH _ _ _ _ Hrun Htr1 Htidy1) as (jobs' & Hl & H1 & H2 & H3);
         exists jobs'; split; [by rewrite Hl, length_insert|done].
Qed.

Lemma create_jobs_tracked (c : AsyncClient) (template : string) (data : list json) :
  ∀ (jobs : list poller) (w : world) r w',
    create_jobs c template data jobs w = (r, w') →
    tracked (progress w) jobs →
    Forall tidy (progress w) →
    Forall tidy (progress w') ∧
    (length (progress w') ≤ length (progress w) + length data)%nat ∧
    ∀ jobs', r = Ok jobs' →
      tracked (progress w') jobs' ∧
      length (progress w') = (length (progress w) + length data)%nat.
Proof.
  induction data as [|entry rest IH]; intros jobs w r w' Hrun Htr Htidy.
  - simpl in Hrun. injection Hrun as <- <-. split; [done|]. split; [simpl; lia|].
    intros jobs' [= <-]. split; [done|simpl; lia].
  - destruct (serve (srv w) (template_request c template entry)) as [a s'] eqn:Hs.
    rewrite (create_jobs_cons c template entry rest jobs w a s' Hs) in Hrun.
    assert (Htidy1 : Forall tidy
      (progress w ++ [{| description := "Working"; completed := 0; started := false |}])).
    { apply Forall_app. split; [done|]. constructor; [|constructor].
      by repeat split; [..|left]. }
    assert (Hone : ∀ e w1, progress w1 =
                progress w ++ [{| description := "Working"; completed := 0; started := false |}] →
              Forall tidy (progress w1) ∧
              (length (progress w1) ≤ length (progress w) + length (entry :: rest))%nat ∧
              ∀ jobs', @Raise (list poller) e = Ok jobs' →
                tracked (progress w1) jobs' ∧
                length (progress w1) = (length (progress w) + length (entry :: rest))%nat).
    { intros e w1 ->. split; [done|]. rewrite length_app. simpl. split; [lia|done]. }
    destruct a as [resp|cls]; simpl in Hrun.
    2: { injection Hrun as <- <-. by apply Hone. }
    destruct (response_job_id resp) as [jid|e] eqn:Hjid; simpl in Hrun.
    2: { injection Hrun as <- <-. by apply Hone. }
    apply IH in Hrun as (Ht & Hle & Hok); simpl; [| |done].
    + cbn [progress] in Hle, Hok. rewrite length_app in Hle. simpl in Hle.
      setoid_rewrite length_app in Hok. simpl in Hok.
      split; [done|]. split; [lia|]. intros jobs' Hr.
      destruct (Hok jobs' Hr) as [Htr' Hlen']. split; [done|lia].
    + destruct Htr as [Hlen Hall]. split.
      * rewrite !length_app. simpl. lia.
      * intros k pk Hk. destruct (decide (k < length jobs)%nat) as [Hlt|Hge].
        -- rewrite lookup_app_l in Hk by done.
           destruct (Hall k pk Hk) as (H1 & H2 & H3). split; [done|]. split; [done|].
           intros v Hv. rewrite lookup_app_l by (rewrite Hlen; done). by apply (H3 v).
        -- rewrite lookup_app_r in Hk by lia.
           destruct (k - length jobs)%nat as [|k'] eqn:Hk'; [|done].
           injection Hk as <-. simpl. split; [lia|]. by split.
Qed.

(** The progress display of a batch.  At any point of any run it holds at
    most one task per entry, each one as [add_task] made it but for its
    completion, which is 0 or 100.  When the batch returns, it holds exactly
    one task per entry and every one of them is complete. *)
Theorem batch_progress (token template : string) (data : list json) (sched : list nat)
    (s : S) :
  let run := handle_post_template_jobs token template data sched s in
  (length (progress run.2) ≤ length data)%nat ∧
  Forall (λ t, description t = "Working" ∧ started t = false ∧
               (completed t = 0 ∨ completed t = 100)) (progress run.2) ∧
  ∀ pdfs, run.1 = Some (Ok pdfs) →
    length (progress run.2) = length data ∧
    Forall (λ t, completed t = 100) (progress run.2).
Proof.
  unfold handle_post_template_jobs. set (c := new_client token).
  destruct (create_jobs c template data [] (init_world s)) as [r w1] eqn:Hc.
  assert (Htr0 : tracked (progress (init_world s)) []) by (split; [done|by intros ? ? ?]).
  destruct (create_jobs_tracked c template data _ _ _ _ Hc Htr0 (Forall_nil_2 _))
    as (Htidy1 & Hle1 & Hok1). simpl in Hle1, Hok1.
  destruct r as [jobs|e]; simpl; [|by repeat split].
  destruct (Hok1 jobs eq_refl) as [Htr1 Hlen1].
  destruct (gather c sched jobs w1) as [out w'] eqn:Hg.
  destruct (gather_tracked c sched jobs w1 _ _ Hg Htr1 Htidy1)
    as (jobs' & Hjl & Htr' & Htidy' & Hout).
  simpl.
  assert (Hlen' : length (progress w') = length data).
  { destruct Htr' as [Hl' _]. destruct Htr1 as [Hl1 _]. lia. }
  split; [lia|]. split; [done|]. intros pdfs ->.
  split; [done|].
  destruct (mapM_returned_lookup jobs' pdfs (Hout pdfs eq_refl)) as [_ Hret].
  destruct Htr' as [Hl' Hall']. apply Forall_lookup. intros i t Hi.
  destruct (lookup_lt_is_Some_2 jobs' i) as [p Hp].
  { rewrite <- Hl'. by eapply lookup_lt_Some. }
  destruct (Hret i p Hp) as (v & _ & Hpc).
  destruct (Hall' i p Hp) as (_ & _ & Hdone). specialize (Hdone v Hpc).
  rewrite Hi in Hdone. by injection Hdone.
Qed.

(** ** Services without memory *)

(** Every answer in the trace of a batch is an answer of the service to the
    request it stands with. *)
Lemma batch_answers (token template : string) (data : list json) (sched : list nat)
    (s : S) (q : request) (a : reply) :
  EvHttp q a ∈ trace (handle_post_template_jobs token template data sched s).2 →
  ∃ s0, a = (serve s0 q).1.
Proof.
  intros Hin.
  destruct (batch_events token template data sched s _ Hin)
    as [(entry & s0 & _ & [= -> ->])|(jid & entry & r & Hfrom & _)].
  - by exists s0.
  - destruct Hfrom as [|(a0 & s0 & [= -> ->] & ->)]; [done|]. by exists s0.
Qed.

(** When the answers of the service depend on the request alone, the list a
    batch returns depends on neither the schedule of the pollers nor the
    state the service starts in. *)
Theorem batch_result_independent_of_schedule (f : request → reply)
    (token template : string) (data : list json) (sched1 sched2 : list nat) (s1 s2 : S)
    (pdfs1 pdfs2 : list json) :
  (∀ s q, (serve s q).1 = f q) →
  (handle_post_template_jobs token template data sched1 s1).1 = Some (Ok pdfs1) →
  (handle_post_template_jobs token template data sched2 s2).1 = Some (Ok pdfs2) →
  pdfs1 = pdfs2.
Proof.
  intros Hf Hrun1 Hrun2.
  destruct (batch_ok token template data sched1 s1 pdfs1 Hrun1) as [Hlen1 Hall1].
  destruct (batch_ok token template data sched2 s2 pdfs2 Hrun2) as [Hlen2 Hall2].
  assert (Hans : ∀ sched s q a,
            EvHttp q a ∈ trace (handle_post_template_jobs token template data sched s).2 →
            a = f q).
  { intros sched s q a Hin.
    destruct (batch_answers token template data sched s q a Hin) as [s0 ->]. apply Hf. }
  apply list_eq. intros i.
  destruct (data !! i) as [entry|] eqn:Hentry.
  - destruct (Hall1 i entry Hentry) as (r1 & jid1 & v1 & Hp1 & Hj1 & -> & _ & Hs1).
    destruct (Hall2 i entry Hentry) as (r2 & jid2 & v2 & Hp2 & Hj2 & -> & _ & Hs2).
    apply list_elem_of_lookup_2, posts_elem, Hans in Hp1.
    apply list_elem_of_lookup_2, posts_elem, Hans in Hp2.
    rewrite <- Hp2 in Hp1. injection Hp1 as ->.
    rewrite Hj2 in Hj1. injection Hj1 as <-.
    destruct Hs1 as (d1 & Hin1 & _ & Hv1). destruct Hs2 as (d2 & Hin2 & _ & Hv2).
    apply Hans in Hin1. apply Hans in Hin2. rewrite <- Hin2 in Hin1.
    injection Hin1 as ->. rewrite Hv2 in Hv1. by injection Hv1 as ->.
  - apply lookup_ge_None in Hentry.
    rewrite !(proj2 (lookup_ge_None _ _)) by lia. done.
Qed.

(** ** The commands *)

(** [add_job]: when the command prints its result, it has printed the two
    banner lines and then the document URL, which a 200 answer held for the
    job that the creation of the given URL, sent with input type [url], was
    answered with. *)
Theorem add_job_prints_document (url token : string) (fuel : nat) (s : S)
    (out : list string) :
  add_job url token fuel s = Some (Ok out) →
  ∃ v r jid polls,
    out = ["Creating PDF of URL"; "Resource: " +:+ url; py_str v] ∧
    trace (handle_post_job token url "url" fuel s).2 =
      EvHttp
        (client_post (new_client token) (api_url "jobs/")
           (JObj [("resource", JStr url); ("input_type", JStr "url")]))
        (Resp r) :: polls ∧
    response_job_id r = Ok jid ∧
    seen_url (new_client token) jid v polls.
Proof.
  unfold add_job.
  destruct (handle_post_job token url "url" fuel s).1 as [[v|e]|] eqn:Hrun; [|done|done].
  intros [= <-].
  destruct (single_job_ok token url "url" fuel s v Hrun)
    as (r & jid & polls & Htr & Hjid & _ & Hseen & _).
  by exists v, r, jid, polls.
Qed.

(** [add_job_html]: the text of the file is the resource of the creation,
    sent with input type [html]; when the command prints its result, that is
    its banner line and then the document URL found for the created job. *)
Theorem add_job_html_prints_document (html token : string) (fuel : nat) (s : S)
    (out : list string) :
  add_job_html html token fuel s = Some (Ok out) →
  ∃ v r jid polls,
    out = ["Converting PDF to HTML"; py_str v] ∧
    trace (handle_post_job token html "html" fuel s).2 =
      EvHttp
        (client_post (new_client token) (api_url "jobs/")
           (JObj [("resource", JStr html); ("input_type", JStr "html")]))
        (Resp r) :: polls ∧
    response_job_id r = Ok jid ∧
    seen_url (new_client token) jid v polls.
Proof.
  unfold add_job_html.
  destruct (handle_post_job token html "html" fuel s).1 as [[v|e]|] eqn:Hrun; [|done|done].
  intros [= <-].
  destruct (single_job_ok token html "html" fuel s v Hrun)
    as (r & jid & polls & Htr & Hjid & _ & Hseen & _).
  by exists v, r, jid, polls.
Qed.




(** [login] after a 200 answer whose JSON object has no [access_token]:
    the command reports success and prints the token as [None]. *)
Theorem login_missing_token_prints_none (email password : string)
    (post : form_request → reply) (r : response) (kv : list (string * json)) :
  post (login_request email password) = Resp r →
  status_code r = 200 →
  content r = Some (JObj kv) →
  dict_lookup kv "access_token" = None →
  login email password post =
    (["Attempting login for " +:+ email +:+ ".";
      "Login succesful, use the following environment variable:";
      "PAPERO_API_TOKEN=None"], Finished).
Proof.
  intros Hpost H200 Hkv Hnone. unfold login, response_json. rewrite Hpost, H200, Hkv.
  simpl. by rewrite Hnone.
Qed.

(** ** The text of an entry *)

(** The query of a template URL is never URL-encoded when the entry is a
    JSON object, a list or a string: its text starts with a brace, a bracket
    or a quote. *)
Theorem template_query_not_urlencoded (template template_server : string) (entry : json) :
  (∃ kv, entry = JObj kv) ∨ (∃ l, entry = JArr l) ∨ (∃ t, entry = JStr t) →
  ∃ query,
    template_url template entry template_server =
      template_server +:+ "/" +:+ template +:+ "?data=" +:+ query ∧
    urlencoded query = false.
Proof.
  intros H. exists (json_dumps entry). split; [done|].
  by destruct H as [[kv ->]|[[l ->]|[t ->]]].
Qed.

(** ** Fuel *)

Lemma poll_for_pdf_more (n m : nat) (c : AsyncClient) (p : poller) (w : world) r :
  (poll_for_pdf n c p w).1 = Some r →
  poll_for_pdf (n + m) c p w = poll_for_pdf n c p w.
Proof.
  rewrite !poll_for_pdf_resume, resume_add. simpl. intros Hout.
  by rewrite (resume_finished m c _ _ r Hout).
Qed.

(** ** The answer to a creation *)

Lemma handle_post_job_created (token resource input_type : string) (fuel : nat)
    (s s1 : S) (r : response) (jid : json) :
  serve s (post_job_request (new_client token) resource input_type) = (Resp r, s1) →
  response_job_id r = Ok jid →
  handle_post_job token resource input_type fuel s =
    poll_for_pdf fuel (new_client token) (new_poller jid 0)
      {| srv := s1;
         progress := [{| description := "Working"; completed := 0; started := false |}];
         trace := [EvHttp (post_job_request (new_client token) resource input_type)
                     (Resp r)] |}.
Proof.
  intros Hs Hjid. unfold handle_post_job, post_job, exchange. simpl. rewrite Hs. simpl.
  by rewrite Hjid.
Qed.

(** What [handle_post_job] makes of the answer to its creation.  Its status
    code is never looked at: whenever the body is a JSON object, the first
    resumption of the poller sends a status request for the value under
    [job_id], or for [None] without that key.  A body that is JSON but no
    object raises [AttributeError], a body that is not JSON raises the
    decoding error, a failed request raises its transport error; in these
    three cases the creation is the only event, so nothing is polled. *)
Theorem single_job_creation_answer (token resource input_type : string) (fuel : nat)
    (s s1 : S) (a : reply) :
  serve s (post_job_request (new_client token) resource input_type) = (a, s1) →
  (∀ r kv, a = Resp r → content r = Some (JObj kv) →
     ∃ a' more,
       trace (handle_post_job token resource input_type (Datatypes.S fuel) s).2 =
         EvHttp (post_job_request (new_client token) resource input_type) a ::
         EvHttp (status_request (new_client token)
                   (default JNull (dict_lookup kv "job_id"))) a' :: more) ∧
  (∀ e,
     (∃ cls, a = Fail cls ∧ e = TransportError cls) ∨
     (∃ r, a = Resp r ∧ content r = None ∧ e = JSONDecodeError) ∨
     (∃ r j, a = Resp r ∧ content r = Some j ∧ (∀ kv, j ≠ JObj kv) ∧ e = AttributeError) →
     handle_post_job token resource input_type fuel s =
       (Some (Raise e),
        {| srv := s1;
           progress := [{| description := "Working"; completed := 0; started := false |}];
           trace := [EvHttp (post_job_request (new_client token) resource input_type) a] |})).
Proof.
  intros Hs. split.
  - intros r kv -> Hkv.
    set (jid := default JNull (dict_lookup kv "job_id")).
    assert (Hjid : response_job_id r = Ok jid).
    { unfold response_job_id, response_json. rewrite Hkv. simpl.
      unfold jid. by destruct (dict_lookup kv "job_id"). }
    rewrite (handle_post_job_created token resource input_type _ s s1 r jid Hs Hjid).
    rewrite poll_for_pdf_resume. cbn [snd].
    match goal with |- context [resume (Datatypes.S fuel) ?c ?p ?w] =>
      rewrite (resume_S fuel c p w);
      destruct (resume_from_job c fuel (poll_step c p w).1 (poll_step c p w).2)
        as (m2 & Htr2 & _);
      destruct (serve (srv w) (status_request c (job_id p))) as [a' s2] eqn:Hs2;
      destruct (poll_step_cases c p w a' s2 eq_refl Hs2)
        as [(cls & -> & Hst)|[(r0 & -> & Hne & Hst)|[(r0 & -> & H200 & Hnone & Hst)|
           [(r0 & e & -> & H200 & He & Hc & Hst)|[(r0 & v & pr & -> & H200 & Hv & Hup & Hst)|
            (r0 & v & -> & H200 & Hv & Hlen & Hst)]]]]];
      rewrite Htr2, Hst; simpl
    end.
    all: eexists _, _; reflexivity.
  - intros e [(cls & -> & ->)|[(r & -> & Hnone & ->)|(r & j & -> & Hj & Hno & ->)]];
      unfold handle_post_job, post_job, exchange; simpl; rewrite Hs; simpl.
    + done.
    + unfold response_job_id, response_json. by rewrite Hnone.
    + unfold response_job_id, response_json. rewrite Hj. simpl.
      destruct j; try done. by destruct (Hno kv).
Qed.
End Client.

Arguments srv {S} w.
Arguments progress {S} w.
Arguments trace {S} w.

(** ** The template resource *)

(** C5, as amended.  The resource of a template job is
    [{template_server}/{template}?data={json}] where [{json}] is the text
    [json.dumps] gives for the entry, put into the URL as it is; it is sent
    to the jobs endpoint of the configured server with [input_type] set to
    [url]; and [template_server] is the fixed demo endpoint: the resource is
    the same under any other setting of [PAPERO_SERVER]. *)
Theorem template_job_resource (settings settings' : Settings) (S : Type)
    (serve : S → request → reply * S) (c : AsyncClient) (template : string)
    (entry : json) (w : world S) :
  template_url template entry default_template_server =
    "https://demo.papero.io/templates/" +:+ template +:+ "?data=" +:+ json_dumps entry ∧
  post_template_job settings S serve c template entry w =
    exchange S serve
      {| meth := POST;
         url := PAPERO_SERVER settings +:+ "/api/v1/jobs/";
         authorization := client_authorization c;
         payload :=
           Some (JObj [("resource",
                        JStr (template_url template entry default_template_server));
                       ("input_type", JStr "url")]) |} w ∧
  payload (template_request settings c template entry) =
    payload (template_request settings' c template entry).
Proof. by repeat split. Qed.

(** C5, the claim as stated fails: the query of the resource built for the
    entry [{"a": 1}] is the JSON text itself, which is not URL-encoded, and
    the resource differs from the one the specification describes. *)
Lemma template_url_not_urlencoded :
  let d := JObj [("a", JInt 1)] in
  template_url "invoice" d default_template_server =
    "https://demo.papero.io/templates/invoice?data=" +:+ json_dumps d ∧
  json_dumps d = "{" +:+ str1 dquote +:+ "a" +:+ str1 dquote +:+ ": 1}" ∧
  urlencoded (json_dumps d) = false ∧
  percent_encode (json_dumps d) = "%7B%22a%22%3A%201%7D" ∧
  template_url "invoice" d default_template_server ≠
    spec_template_url default_template_server "invoice" d.
Proof. by repeat split. Qed.

(** ** Where the poller leaves the specification *)

(** C3, the claim as stated fails: a 200 response whose body is not JSON has
    no [document.url], yet the poller does not wait and retry; the decoding
    error leaves it, with the request as the only event. *)
Lemma poll_raises_on_undecodable_body :
  let c := new_client "token" in
  let p := new_poller (JStr "abc") 0 in
  let w := {| srv := tt; progress := [working_task]; trace := [] |} in
  let st := poll_step default_settings unit (always (Resp undecodable)) c p w in
  status_code undecodable = 200 ∧
  (∀ v, document_url undecodable ≠ Ok v) ∧
  pc st.1 = Raised JSONDecodeError ∧
  trace st.2 = [EvHttp (status_request default_settings c (JStr "abc")) (Resp undecodable)].
Proof. by repeat split. Qed.

(** C6, the claim as stated fails: on a status endpoint that keeps answering
    404 the response is unchanged and holds no [document.url], yet two
    attempts follow each other with no sleep in between. *)
Lemma poll_404_has_no_wait :
  let c := new_client "token" in
  let p := new_poller (JStr "abc") 0 in
  let w := {| srv := tt; progress := [working_task]; trace := [] |} in
  let q := status_request default_settings c (JStr "abc") in
  (∀ v, document_url not_found ≠ Ok v) ∧
  poll_for_pdf default_settings unit (always (Resp not_found)) 2 c p w =
    (None, {| srv := tt; progress := [working_task];
              trace := [EvHttp q (Resp not_found); EvHttp q (Resp not_found)] |}).
Proof. by repeat split. Qed.

(** C7, the claim as stated fails: the loop also ends on a 200 response
    whose body is not JSON.  No document URL was found and no request failed
    in transport, yet the run is over after one status request. *)
Lemma poll_ends_on_undecodable_body :
  let c := new_client "token" in
  let p := new_poller (JStr "abc") 0 in
  let w := {| srv := tt; progress := [working_task]; trace := [] |} in
  let run := poll_for_pdf default_settings unit (always (Resp undecodable)) 1 c p w in
  run.1 = Some (Raise JSONDecodeError) ∧
  Forall (λ e, is_fail e = false) (trace run.2) ∧
  (∀ v, ¬ seen_url default_settings c (JStr "abc") v (trace run.2)) ∧
  count_polls (trace run.2) = 1%nat.
Proof.
  repeat split; [by repeat constructor|].
  intros v (doc & Hin & _ & Hurl). cbn in Hin.
  apply list_elem_of_singleton in Hin. injection Hin as Hdoc.
  rewrite Hdoc in Hurl. discriminate.
Qed.

(** ** The scenarios of the specification *)

(** One URL job: the creation answers with job id [abc], two status requests
    get an empty object and the third the document; the client returns the
    document URL after exactly three status requests. *)
Example single_job_scenario :
  let run := handle_post_job default_settings nat three_polls_service
               "token" "https://example.org" "url" 5 0%nat in
  run.1 = Some (Ok (JStr "https://cdn/doc.pdf")) ∧ count_polls (trace run.2) = 3%nat.
Proof. by split. Qed.

(** A batch of two entries whose second job is ready before the first: the
    result is in the order of the entries, whichever poller finishes
    first. *)
Example batch_scenario :
  let run sched := handle_post_template_jobs default_settings (nat * nat) job_service
                     "token" "invoice" two_entries sched (0, 0)%nat in
  (run [1; 0; 0; 0]%nat).1 = Some (Ok [JStr "url1"; JStr "url2"]) ∧
  (run [0; 0; 0; 1]%nat).1 = Some (Ok [JStr "url1"; JStr "url2"]) ∧
  (run [1; 0; 0]%nat).1 = None.
Proof. by repeat split. Qed.

(** ** The theorems at concrete services *)

(** C1 on the two-entry batch, with the second job finishing first. *)
Lemma batch_results_in_input_order_witness :
  let run := handle_post_template_jobs default_settings (nat * nat) job_service
               "token" "invoice" two_entries [1; 0; 0; 0]%nat (0, 0)%nat in
  run.1 = Some (Ok [JStr "url1"; JStr "url2"]) ∧
  length [JStr "url1"; JStr "url2"] = length two_entries.
Proof.
  split; [reflexivity|].
  exact (proj1 (batch_results_in_input_order default_settings (nat * nat) job_service
                  "token" "invoice" two_entries [1; 0; 0; 0]%nat (0, 0)%nat
                  [JStr "url1"; JStr "url2"] eq_refl)).
Defined.

(** C2 on a service whose document is ready. *)
Lemma poll_returns_document_url_witness :
  let c := new_client "token" in
  let p := new_poller (JStr "abc") 0 in
  let w := {| srv := tt; progress := [working_task]; trace := [] |} in
  let r := document_ready "https://cdn/doc.pdf" in
  pc p = Polling ∧
  (task p < length (progress w))%nat ∧
  status_code r = 200 ∧
  document_url r = Ok (JStr "https://cdn/doc.pdf") ∧
  ∃ w', ∀ fuel,
    poll_for_pdf default_settings unit (always (Resp r)) (Datatypes.S fuel) c p w =
      (Some (Ok (JStr "https://cdn/doc.pdf")), w').
Proof.
  intros c p w r.
  assert (H1 : pc p = Polling) by reflexivity.
  assert (H2 : (task p < length (progress w))%nat) by (simpl; lia).
  assert (H3 : always (Resp r) (srv w) (status_request default_settings c (job_id p))
               = (Resp r, tt)) by reflexivity.
  assert (H4 : status_code r = 200) by reflexivity.
  assert (H5 : document_url r = Ok (JStr "https://cdn/doc.pdf")) by reflexivity.
  do 4 (split; [assumption|]).
  destruct (poll_returns_document_url default_settings unit (always (Resp r))
              c p w r tt "https://cdn/doc.pdf" H1 H2 H3 H4 H5) as (w' & Hrun & _).
  exists w'. exact Hrun.
Defined.

(** C3, as amended, on a service that answers with an empty object. *)
Lemma poll_retries_when_url_missing_witness :
  let c := new_client "token" in
  let p := new_poller (JStr "abc") 0 in
  let w := {| srv := tt; progress := [working_task]; trace := [] |} in
  let r := ok_response (JObj []) in
  let q := status_request default_settings c (JStr "abc") in
  status_code r = 200 ∧
  content r = Some (JObj []) ∧
  (∀ v, document_url r ≠ Ok v) ∧
  poll_step default_settings unit (always (Resp r)) c p w =
    (set_pc p (Sleeping JNull),
     {| srv := tt; progress := [working_task];
        trace := [EvHttp q (Resp r); EvSleep 300] |}).
Proof.
  intros c p w r q.
  assert (H1 : pc p = Polling) by reflexivity.
  assert (H2 : always (Resp r) (srv w) (status_request default_settings c (job_id p))
               = (Resp r, tt)) by reflexivity.
  assert (H3 : status_code r = 200) by reflexivity.
  assert (H4 : content r = Some (JObj [])) by reflexivity.
  assert (H5 : ∀ v, document_url r ≠ Ok v) by (intros v H; discriminate H).
  do 3 (split; [assumption|]).
  exact (proj1 (poll_retries_when_url_missing default_settings unit (always (Resp r))
                  c p w r tt (JObj []) H1 H2 H3 H4 H5)).
Defined.

(** C6, as amended, on a service that keeps reporting a job in progress. *)
Lemma poll_unchanged_status_witness :
  let c := new_client "token" in
  let p := new_poller (JStr "abc") 0 in
  let w := {| srv := tt; progress := [working_task]; trace := [] |} in
  let r := ok_response (JObj [("status", JStr "processing")]) in
  (∀ v, ¬ (status_code r = 200 ∧ document_url r = Ok v)) ∧
  (∀ fuel v, (poll_for_pdf default_settings unit (always (Resp r)) fuel c p w).1
             ≠ Some (Ok v)) ∧
  ∃ w', poll_for_pdf default_settings unit (always (Resp r)) 4 c p w = (None, w') ∧
        count_polls (trace w') = 2%nat.
Proof.
  intros c p w r.
  assert (H1 : pc p = Polling) by reflexivity.
  assert (H2 : ∀ s, (always (Resp r) s (status_request default_settings c (job_id p))).1
                    = Resp r) by (intros s; reflexivity).
  assert (H3 : ∀ v, ¬ (status_code r = 200 ∧ document_url r = Ok v))
    by (intros v [_ H]; discriminate H).
  split; [assumption|].
  destruct (poll_unchanged_status default_settings unit (always (Resp r)) c p w r H1 H2 H3)
    as [Hnever Hwait].
  split; [exact Hnever|].
  destruct (Hwait eq_refl (ex_intro _ _ eq_refl) 2%nat) as (w' & Hrun & Htr).
  exists w'. split; [exact Hrun|]. rewrite Htr. reflexivity.
Defined.

(** C8 on a service that keeps answering 404. *)
Lemma poll_non_200_retries_at_once_witness :
  let c := new_client "token" in
  let p := new_poller (JStr "abc") 0 in
  let w := {| srv := tt; progress := [working_task]; trace := [] |} in
  let q := status_request default_settings c (JStr "abc") in
  status_code not_found ≠ 200 ∧
  poll_step default_settings unit (always (Resp not_found)) c p w =
    (p, {| srv := tt; progress := [working_task]; trace := [EvHttp q (Resp not_found)] |}) ∧
  ∃ w' evs,
    poll_for_pdf default_settings unit (always (Resp not_found)) 5 c p w = (None, w') ∧
    trace w' = evs ∧ length evs = 5%nat ∧ Forall (λ e, is_status_poll e = true) evs.
Proof.
  intros c p w q.
  assert (H1 : pc p = Polling) by reflexivity.
  assert (H2 : (task p < length (progress w))%nat) by (simpl; lia).
  assert (H3 : status_code not_found ≠ 200) by discriminate.
  assert (H4 : ∀ s, ∃ r, (always (Resp not_found) s
                            (status_request default_settings c (job_id p))).1 = Resp r ∧
                         status_code r ≠ 200)
    by (intros s; exists not_found; split; [reflexivity|exact H3]).
  destruct (poll_non_200_retries_at_once default_settings unit (always (Resp not_found))
              c p w H1 H2) as (Hstep & _ & Hbusy).
  split; [exact H3|]. split.
  - exact (Hstep not_found tt eq_refl H3).
  - destruct (Hbusy H4 5%nat) as (w' & evs & Hrun & Htr & Hlen & Hall).
    exists w', evs. repeat split; assumption.
Defined.

(** C7, as amended: a run that ends with its document, a run that never
    ends, and the job id [None] of a creation answer without [job_id]. *)
Lemma poll_loop_unbounded_witness :
  let c := new_client "token" in
  let p := new_poller (JStr "abc") 0 in
  let w := {| srv := tt; progress := [working_task]; trace := [] |} in
  let r := document_ready "https://cdn/doc.pdf" in
  (∃ evs, seen_url default_settings c (JStr "abc") (JStr "https://cdn/doc.pdf") evs ∧
          trace (poll_for_pdf default_settings unit (always (Resp r)) 1 c p w).2 = evs) ∧
  (∀ fuel, (poll_for_pdf default_settings unit (always (Resp not_found)) fuel c p w).1
           = None) ∧
  url (status_request default_settings c JNull) = "https://papero.io/api/v1/jobs/None" ∧
  (∀ fuel, (handle_post_job default_settings unit forgetful_service
              "token" "https://example.org" "url" fuel tt).1 = None) ∧
  (∀ n, (n < count_polls
               (trace (handle_post_job default_settings unit forgetful_service
                         "token" "https://example.org" "url" (2 * n + 2) tt).2))%nat).
Proof.
  intros c p w r.
  destruct (poll_loop_unbounded default_settings unit (always (Resp r))) as (Hexit & _ & _).
  destruct (poll_loop_unbounded default_settings unit (always (Resp not_found)))
    as (_ & Hloop & _).
  destruct (poll_loop_unbounded default_settings unit forgetful_service) as (_ & _ & Hnull).
  assert (H1 : pc p = Polling) by reflexivity.
  split.
  { destruct (Hexit c p w 1%nat (Ok (JStr "https://cdn/doc.pdf"))
                (poll_for_pdf default_settings unit (always (Resp r)) 1 c p w).2
                H1 eq_refl) as (evs & Htr & _ & Hseen).
    exists evs. split; [exact Hseen|exact Htr]. }
  split.
  { exact (proj1 (Hloop c p w H1 (fun s => eq_refl))). }
  destruct (Hnull "token" "https://example.org" "url" tt
              (ok_response (JObj [("detail", JStr "Not authenticated")])) tt
              [("detail", JStr "Not authenticated")]
              eq_refl eq_refl eq_refl (fun s => eq_refl)) as (Hurl & Hnever & Hmany).
  split; [exact Hurl|]. split; [exact Hnever|exact Hmany].
Defined.


(** ** The poller against a script of answers *)

Lemma count_polls_app (tr1 tr2 : list event) :
  count_polls (tr1 ++ tr2) = (count_polls tr1 + count_polls tr2)%nat.
Proof. unfold count_polls. by rewrite List.filter_app, length_app. Qed.

Lemma count_polls_status (settings : Settings) (c : AsyncClient) (jid : json) (a : reply)
    (tail : list event) :
  count_polls (EvHttp (status_request settings c jid) a :: tail)
  = Datatypes.S (count_polls tail).
Proof. done. Qed.

Lemma count_polls_sleep (ms : Z) (tail : list event) :
  count_polls (EvSleep ms :: tail) = count_polls tail.
Proof. done. Qed.

Lemma scripted_answer (pre post : list reply) (a rest : reply) (q : request) :
  scripted (pre ++ a :: post) rest (length pre) q = (a, Datatypes.S (length pre)).
Proof. unfold scripted. by rewrite list_lookup_middle. Qed.

Lemma poll_script (settings : Settings) (c : AsyncClient) (p : poller) (rest : reply)
    (r : response) (v : json) (answers : list reply) :
  pc p = Polling →
  status_code r = 200 →
  document_url r = Ok v →
  v ≠ JNull →
  Forall (λ a, pending a = true) answers →
  ∀ (pre : list reply) (w : world nat),
    srv w = length pre →
    (task p < length (progress w))%nat →
    let run := poll_for_pdf settings nat (scripted (pre ++ answers ++ [Resp r]) rest)
                 (2 * length answers + 1) c p w in
    run.1 = Some (Ok v) ∧
    count_polls (trace run.2) = (count_polls (trace w) + length answers + 1)%nat.
Proof.
  intros Hpc H200 Hv Hnn Hpend. induction Hpend as [|a answers Ha _ IH]; intros pre w Hsrv Ht.
  - change (2 * length (@nil reply) + 1)%nat with 1%nat.
    change (pre ++ [] ++ [Resp r]) with (pre ++ [Resp r]).
    pose proof (scripted_answer pre [] (Resp r) rest (status_request settings c (job_id p)))
      as Hs. rewrite <- Hsrv in Hs.
    rewrite poll_for_pdf_unfold by (unfold outcome; by rewrite Hpc).
    destruct (poll_step_cases settings nat _ c p w _ _ Hpc Hs)
      as [(cls & [=] & _)|[(r0 & [= <-] & Hne & _)|[(r0 & [= <-] & _ & Hnone & _)|
         [(r0 & e & [= <-] & _ & He & _)|[(r0 & v0 & pr & [= <-] & _ & Hv0 & Hup & Hst)|
          (r0 & v0 & [= <-] & _ & _ & Hlen & _)]]]]]; try congruence; try lia.
    + unfold document_url, response_json in Hv. by rewrite Hnone in Hv.
    + rewrite Hv in Hv0. injection Hv0 as <-.
      destruct (loop_test_outcome v) as [[? _]|[_ Hl]]; [done|]. rewrite Hl in Hst.
      rewrite Hst. simpl fst; simpl snd.
      rewrite (poll_for_pdf_finished settings nat _ 0 c _ _ (Ok v)) by done.
      split; [done|]. unfold set_progress. cbn [trace].
      rewrite count_polls_app, count_polls_status.
      change (count_polls []) with 0%nat. simpl. lia.
  - replace (2 * length (a :: answers) + 1)%nat
      with (Datatypes.S (Datatypes.S (2 * length answers + 1))) by (simpl; lia).
    change (pre ++ (a :: answers) ++ [Resp r]) with (pre ++ a :: answers ++ [Resp r]).
    pose proof (scripted_answer pre (answers ++ [Resp r]) a rest
                  (status_request settings c (job_id p))) as Hs.
    rewrite <- Hsrv in Hs.
    assert (Hscript : pre ++ a :: answers ++ [Resp r] = (pre ++ [a]) ++ answers ++ [Resp r])
      by (by rewrite <- app_assoc).
    assert (Hnext : ∀ w1 : world nat,
              srv w1 = Datatypes.S (length pre) →
              length (progress w1) = length (progress w) →
              count_polls (trace w1) = Datatypes.S (count_polls (trace w)) →
              ∀ k,
              let run := poll_for_pdf settings nat
                           (scripted (pre ++ a :: answers ++ [Resp r]) rest)
                           (2 * length answers + 1 + k) c p w1 in
              run.1 = Some (Ok v) ∧
              count_polls (trace run.2)
                = (count_polls (trace w) + length (a :: answers) + 1)%nat).
    { intros w1 Hsrv1 Hlen1 Hcount1 k. rewrite Hscript.
      destruct (IH (pre ++ [a]) w1) as [Hres Hcnt].
      { rewrite length_app. simpl. lia. }
      { by rewrite Hlen1. }
      rewrite (poll_for_pdf_more settings nat _ _ k c p w1 _ Hres).
      split; [done|]. rewrite Hcnt, Hcount1. simpl. lia. }
    rewrite poll_for_pdf_unfold by (unfold outcome; by rewrite Hpc).
    destruct (poll_step_cases settings nat _ c p w _ _ Hpc Hs)
      as [(cls & -> & _)|[(r0 & -> & Hne & Hst)|[(r0 & -> & H200' & Hnone & _)|
         [(r0 & e & -> & H200' & He & Hc & Hst)|[(r0 & v0 & pr & -> & H200' & Hv0 & Hup & Hst)|
          (r0 & v0 & -> & _ & _ & Hlen & _)]]]]]; try done; try lia.
    + rewrite Hst. simpl fst; simpl snd.
      rewrite <- Hpc, set_pc_same.
      replace (Datatypes.S (2 * length answers + 1)) with (2 * length answers + 1 + 1)%nat by lia.
      apply Hnext; [simpl; congruence|done|]. cbn [trace]. rewrite count_polls_app, count_polls_status.
        change (count_polls []) with 0%nat. lia.
    + unfold pending, document_url, response_json in Ha. by rewrite H200', Hnone in Ha.
    + rewrite Hst. simpl fst; simpl snd.
      rewrite poll_for_pdf_unfold by done.
      assert (Hwake : ∀ sv (w0 : world nat),
                poll_step settings nat sv c (set_pc p (Sleeping JNull)) w0 = (p, w0)).
      { intros sv w0. clear -Hpc. destruct p as [j t st]. simpl in Hpc. by subst st. }
      rewrite Hwake. simpl fst; simpl snd.
      replace (2 * length answers + 1)%nat with (2 * length answers + 1 + 0)%nat by lia.
      apply Hnext; [simpl; congruence|done|]. unfold log. cbn [trace].
      rewrite !count_polls_app, count_polls_status, count_polls_sleep.
      change (count_polls []) with 0%nat. lia.
    + unfold pending in Ha. rewrite H200', Hv0 in Ha.
      assert (v0 = JNull) as -> by (by destruct v0).
      rewrite Hst. simpl fst; simpl snd. rewrite <- Hpc, set_pc_same.
      replace (Datatypes.S (2 * length answers + 1)) with (2 * length answers + 1 + 1)%nat by lia.
      apply Hnext; [simpl; congruence| |].
      * simpl. unfold progress_update in Hup.
        destruct (progress w !! task p); [|done]. injection Hup as <-.
        apply length_insert.
      * unfold set_progress. cbn [trace]. rewrite count_polls_app, count_polls_status.
        change (count_polls []) with 0%nat. lia.
Qed.

(** When the service answers the status requests of a poller with any
    number of pending answers and then with a document, the poller returns
    that document after exactly one status request per answer, given two
    resumptions per pending answer and one for the last. *)
Theorem poll_returns_first_document (settings : Settings) (c : AsyncClient) (p : poller)
    (answers : list reply) (rest : reply) (r : response) (v : json)
    (pr : list Task) (tr : list event) :
  pc p = Polling →
  (task p < length pr)%nat →
  Forall (λ a, pending a = true) answers →
  status_code r = 200 →
  document_url r = Ok v →
  v ≠ JNull →
  let run := poll_for_pdf settings nat (scripted (answers ++ [Resp r]) rest)
               (2 * length answers + 1) c p
               {| srv := 0%nat; progress := pr; trace := tr |} in
  run.1 = Some (Ok v) ∧
  count_polls (trace run.2) = (count_polls tr + length answers + 1)%nat.
Proof.
  intros Hpc Ht Hpend H200 Hv Hnn.
  exact (poll_script settings c p rest r v answers Hpc H200 Hv Hnn Hpend []
           {| srv := 0%nat; progress := pr; trace := tr |} eq_refl Ht).
Qed.

(** ** More theorems at concrete services *)

(** A document URL that is a number is returned as it is. *)
Lemma poll_returns_any_value_witness :
  let c := new_client "token" in
  let p := new_poller (JStr "abc") 0 in
  let w := {| srv := tt; progress := [working_task]; trace := [] |} in
  let r := ok_response (JObj [("document", JObj [("url", JInt 7)])]) in
  document_url r = Ok (JInt 7) ∧
  ∃ w', ∀ fuel,
    poll_for_pdf default_settings unit (always (Resp r)) (Datatypes.S fuel) c p w =
      (Some (Ok (JInt 7)), w').
Proof.
  intros c p w r.
  assert (H1 : pc p = Polling) by reflexivity.
  assert (H2 : (task p < length (progress w))%nat) by (simpl; lia).
  assert (H3 : always (Resp r) (srv w) (status_request default_settings c (job_id p))
               = (Resp r, tt)) by reflexivity.
  assert (H4 : status_code r = 200) by reflexivity.
  assert (H5 : document_url r = Ok (JInt 7)) by reflexivity.
  assert (H6 : JInt 7 ≠ JNull) by discriminate.
  split; [exact H5|].
  destruct (poll_returns_any_value default_settings unit (always (Resp r))
              c p w r tt (JInt 7) H1 H2 H3 H4 H5 H6) as (w' & Hrun & _).
  exists w'. exact Hrun.
Defined.

(** A null document URL completes the task and the poller polls on. *)
Lemma poll_null_url_completes_task_witness :
  let c := new_client "token" in
  let p := new_poller (JStr "abc") 0 in
  let w := {| srv := tt; progress := [working_task]; trace := [] |} in
  let r := ok_response (JObj [("document", JObj [("url", JNull)])]) in
  document_url r = Ok JNull ∧
  ∃ pr, (poll_step default_settings unit (always (Resp r)) c p w).1 = p ∧
        progress (poll_step default_settings unit (always (Resp r)) c p w).2 = pr ∧
        completed <$> pr !! 0%nat = Some 100.
Proof.
  intros c p w r.
  assert (H1 : pc p = Polling) by reflexivity.
  assert (H2 : (task p < length (progress w))%nat) by (simpl; lia).
  assert (H3 : always (Resp r) (srv w) (status_request default_settings c (job_id p))
               = (Resp r, tt)) by reflexivity.
  assert (H4 : status_code r = 200) by reflexivity.
  assert (H5 : document_url r = Ok JNull) by reflexivity.
  split; [exact H5|].
  destruct (poll_null_url_completes_task default_settings unit (always (Resp r))
              c p w r tt H1 H2 H3 H4 H5) as (pr & Hstep & Hdone & _).
  exists pr. rewrite Hstep. split; [reflexivity|]. split; [reflexivity|exact Hdone].
Defined.



(** A job id is put into the URL text as it is. *)
Example status_url_is_not_escaped :
  url (status_request default_settings (new_client "token") (JStr "../login"))
  = "https://papero.io/api/v1/jobs/../login".
Proof. reflexivity. Qed.

(** The single-job scenario of the specification. *)
Lemma single_job_result_witness :
  let run := handle_post_job default_settings nat three_polls_service
               "token" "https://example.org" "url" 5 0%nat in
  run.1 = Some (Ok (JStr "https://cdn/doc.pdf")) ∧
  ∃ r jid polls,
    response_job_id r = Ok jid ∧
    seen_url default_settings (new_client "token") jid (JStr "https://cdn/doc.pdf") polls.
Proof.
  intros run.
  assert (H : run.1 = Some (Ok (JStr "https://cdn/doc.pdf"))) by reflexivity.
  split; [exact H|].
  destruct (single_job_result default_settings nat three_polls_service
              "token" "https://example.org" "url" 5%nat 0%nat _ H)
    as (r & jid & polls & _ & Hjid & _ & Hseen & _).
  exists r, jid, polls. split; [exact Hjid|exact Hseen].
Defined.

(** The two-entry batch ends with two complete tasks. *)
Lemma batch_progress_witness :
  let run := handle_post_template_jobs default_settings (nat * nat) job_service
               "token" "invoice" two_entries [1; 0; 0; 0]%nat (0, 0)%nat in
  run.1 = Some (Ok [JStr "url1"; JStr "url2"]) ∧
  length (progress run.2) = 2%nat ∧
  Forall (λ t, completed t = 100) (progress run.2).
Proof.
  intros run.
  assert (H : run.1 = Some (Ok [JStr "url1"; JStr "url2"])) by reflexivity.
  split; [exact H|].
  destruct (batch_progress default_settings (nat * nat) job_service
              "token" "invoice" two_entries [1; 0; 0; 0]%nat (0, 0)%nat) as (_ & _ & Hdone).
  exact (Hdone _ H).
Defined.

(** On the service without memory both orders of the two pollers give the
    same list. *)
Lemma batch_result_independent_of_schedule_witness :
  let run sched := handle_post_template_jobs default_settings unit mirror_service
                     "token" "invoice" two_entries sched tt in
  ∃ pdfs1 pdfs2,
    (run [0; 1]%nat).1 = Some (Ok pdfs1) ∧
    (run [1; 0]%nat).1 = Some (Ok pdfs2) ∧
    pdfs1 = pdfs2.
Proof.
  intros run.
  pose (pdfs := (λ d, JStr (api_url default_settings
                              ("jobs/" +:+ template_url "invoice" d default_template_server)))
                <$> two_entries).
  assert (H1 : (run [0; 1]%nat).1 = Some (Ok pdfs)) by reflexivity.
  assert (H2 : (run [1; 0]%nat).1 = Some (Ok pdfs)) by reflexivity.
  exists pdfs, pdfs. split; [exact H1|]. split; [exact H2|].
  exact (batch_result_independent_of_schedule default_settings unit mirror_service
           (λ q, (mirror_service tt q).1) "token" "invoice" two_entries
           [0; 1]%nat [1; 0]%nat tt tt pdfs pdfs
           (λ s q, match s with tt => eq_refl end) H1 H2).
Defined.

(** [add_job] in the single-job scenario. *)
Lemma add_job_prints_document_witness :
  let out := ["Creating PDF of URL"; "Resource: https://example.org"; "https://cdn/doc.pdf"] in
  add_job default_settings nat three_polls_service "https://example.org" "token" 5 0%nat
    = Some (Ok out) ∧
  ∃ v, out = ["Creating PDF of URL"; "Resource: " +:+ "https://example.org"; py_str v].
Proof.
  intros out.
  assert (H : add_job default_settings nat three_polls_service
                "https://example.org" "token" 5 0%nat = Some (Ok out)) by reflexivity.
  split; [exact H|].
  destruct (add_job_prints_document default_settings nat three_polls_service
              "https://example.org" "token" 5%nat 0%nat out H) as (v & r & jid & polls & Hout & _).
  exists v. exact Hout.
Defined.

(** [add_job_html] on a small page. *)
Lemma add_job_html_prints_document_witness :
  let out := ["Converting PDF to HTML"; "https://cdn/doc.pdf"] in
  add_job_html default_settings nat three_polls_service "<h1>Hello</h1>" "token" 5 0%nat
    = Some (Ok out) ∧
  ∃ v, out = ["Converting PDF to HTML"; py_str v].
Proof.
  intros out.
  assert (H : add_job_html default_settings nat three_polls_service
                "<h1>Hello</h1>" "token" 5 0%nat = Some (Ok out)) by reflexivity.
  split; [exact H|].
  destruct (add_job_html_prints_document default_settings nat three_polls_service
              "<h1>Hello</h1>" "token" 5%nat 0%nat out H) as (v & r & jid & polls & Hout & _).
  exists v. exact Hout.
Defined.




(** [login] answered with an empty object. *)
Lemma login_missing_token_prints_none_witness :
  login default_settings "me@example.org" "secret" (fun _ => Resp (ok_response (JObj []))) =
    (["Attempting login for me@example.org.";
      "Login succesful, use the following environment variable:";
      "PAPERO_API_TOKEN=None"], Finished).
Proof.
  exact (login_missing_token_prints_none default_settings "me@example.org" "secret"
           (fun _ => Resp (ok_response (JObj []))) (ok_response (JObj [])) []
           eq_refl eq_refl eq_refl eq_refl).
Defined.

(** The query for the entry with one key. *)
Lemma template_query_not_urlencoded_witness :
  ∃ query,
    template_url "invoice" (JObj [("a", JInt 1)]) default_template_server =
      default_template_server +:+ "/" +:+ "invoice" +:+ "?data=" +:+ query ∧
    urlencoded query = false.
Proof.
  apply (template_query_not_urlencoded "invoice" default_template_server
           (JObj [("a", JInt 1)])).
  left. eexists. reflexivity.
Defined.

(** A 404, then an empty object, then the document: three status requests. *)
Lemma poll_returns_first_document_witness :
  let c := new_client "token" in
  let p := new_poller (JStr "abc") 0 in
  let answers := [Resp not_found; Resp (ok_response (JObj []))] in
  let run := poll_for_pdf default_settings nat
               (scripted (answers ++ [Resp (document_ready "https://cdn/doc.pdf")])
                  (Resp not_found))
               (2 * length answers + 1) c p
               {| srv := 0%nat; progress := [working_task]; trace := [] |} in
  Forall (λ a, pending a = true) answers ∧
  run.1 = Some (Ok (JStr "https://cdn/doc.pdf")) ∧
  count_polls (trace run.2) = 3%nat.
Proof.
  intros c p answers run.
  assert (H1 : pc p = Polling) by reflexivity.
  assert (H2 : (task p < length [working_task])%nat) by (simpl; lia).
  assert (H3 : Forall (λ a, pending a = true) answers)
    by (constructor; [reflexivity|constructor; [reflexivity|constructor]]).
  assert (H4 : JStr "https://cdn/doc.pdf" ≠ JNull) by discriminate.
  split; [exact H3|].
  exact (poll_returns_first_document default_settings c p answers (Resp not_found)
           (document_ready "https://cdn/doc.pdf") (JStr "https://cdn/doc.pdf")
           [working_task] [] H1 H2 H3 eq_refl eq_refl H4).
Defined.

(** A creation answered with 404 and a JSON object starts the polling of
    [jobs/None]; one answered with a body that is not JSON raises. *)
Lemma single_job_creation_answer_witness :
  let c := new_client "token" in
  let q := post_job_request default_settings c "https://example.org" "url" in
  (∃ a' more,
     trace (handle_post_job default_settings unit (always (Resp not_found))
              "token" "https://example.org" "url" 1 tt).2 =
       EvHttp q (Resp not_found) ::
       EvHttp (status_request default_settings c JNull) a' :: more) ∧
  (handle_post_job default_settings unit (always (Resp undecodable))
     "token" "https://example.org" "url" 3 tt).1 = Some (Raise JSONDecodeError).
Proof.
  intros c q. split.
  - exact (proj1 (single_job_creation_answer default_settings unit (always (Resp not_found))
                    "token" "https://example.org" "url" 0%nat tt tt (Resp not_found) eq_refl)
             not_found [("detail", JStr "Not Found")] eq_refl eq_refl).
  - rewrite (proj2 (single_job_creation_answer default_settings unit
                      (always (Resp undecodable))
                      "token" "https://example.org" "url" 3%nat tt tt (Resp undecodable)
                      eq_refl)
               JSONDecodeError
               (or_intror (or_introl (ex_intro _ undecodable
                                        (conj eq_refl (conj eq_refl eq_refl)))))).
    reflexivity.
Defined.
